(** * Resume_Parser: the experience and sanitizer core of [app.py]

    A shallow embedding of the pure part of [app.py]:
    [calculate_experience], [format_experience] and the response cleaning of
    [parse_resume_with_gemini], together with the fragments of the Python
    runtime they call ([str] methods, [re], [datetime], [float], [round]).

    Conventions.
    - A Python [str] is a Rocq [string] holding its UTF-8 encoding.  The
      separators and the markers the program looks for are ASCII, except the
      en-dash U+2013 (bytes E2 80 93); UTF-8 is self-synchronising, so
      searching, splitting and replacing on the bytes agree with Python's
      operations on code points.
    - A Python [int] is a [Z]; a Python [float] is a binary64 [spec_float].
    - A call that can raise returns a [result]; [try ... except Exception]
      is a match on it.
    - Third-party code ([dateutil.parser.parse], [json_repair.loads], the
      generative model) is a parameter of the functions that call it.
    - An experience entry is a [dict] with text values or a [str], the two
      shapes the program tells apart with [isinstance(entry, dict)].
    - The clock is read once for a call of [calculate_experience]: the
      readings taken by [datetime.now()] and by the date parser during one
      call are the same value [now]. *)

From Stdlib Require Import ZArith Lia Bool List Ascii String SpecFloat.
From stdpp Require Import base option gmap strings.

Local Open Scope string_scope.
Local Open Scope Z_scope.

(** [simpl] unfolds [++] on texts again (stdpp turns this off). *)
#[local] Arguments String.append !_ _ / : simpl nomatch.
#[local] Arguments Ascii.eqb : simpl never.

(** ** Results of calls that may raise *)

Inductive exn : Type :=
| TypeError
| ValueError
| OverflowError
| ParserError
| OtherError (name : string).

Inductive result (A : Type) : Type :=
| Ok (a : A)
| Raise (e : exn).
Arguments Ok {A} a.
Arguments Raise {A} e.

#[global] Instance result_bind : MBind result := fun A B f r =>
  match r with
  | Ok a => f a
  | Raise e => Raise e
  end.

(** ** Python [str] methods *)

Module Str.

Definition chr (n : nat) : ascii := ascii_of_nat n.

(** [s.startswith(p)], returning what follows the prefix. *)
Fixpoint strip_prefix (p s : string) : option string :=
  match p with
  | EmptyString => Some s
  | String a p' =>
      match s with
      | EmptyString => None
      | String b s' => if Ascii.eqb a b then strip_prefix p' s' else None
      end
  end.

Definition startswith (p s : string) : bool :=
  match strip_prefix p s with Some _ => true | None => false end.

(** [sub in s] *)
Fixpoint contains (sub s : string) : bool :=
  if startswith sub s then true
  else match s with
       | EmptyString => false
       | String _ s' => contains sub s'
       end.

Fixpoint rev_onto (s acc : string) : string :=
  match s with
  | EmptyString => acc
  | String c s' => rev_onto s' (String c acc)
  end.

Definition rev (s : string) : string := rev_onto s EmptyString.

(** [s.split(sep)] for a non-empty [sep]: the text is scanned from the left;
    at an occurrence of [sep] the current piece is closed and the scan goes
    on after the occurrence.  [skip] counts the characters of a matched
    separator still to be passed over; [cur] is the current piece, reversed. *)
Fixpoint split_scan (sep : string) (skip : nat) (cur : string) (s : string)
  : list string :=
  match s with
  | EmptyString => [rev cur]
  | String c s' =>
      match skip with
      | S k => split_scan sep k cur s'
      | O =>
          if startswith sep s
          then rev cur :: split_scan sep (Nat.pred (String.length sep)) EmptyString s'
          else split_scan sep O (String c cur) s'
      end
  end.

Definition split (sep s : string) : list string :=
  split_scan sep O EmptyString s.

(** [sep.join(l)] *)
Fixpoint join (sep : string) (l : list string) : string :=
  match l with
  | [] => EmptyString
  | [x] => x
  | x :: l' => x ++ sep ++ join sep l'
  end.

(** [s.replace(old, new)] for a non-empty [old]: every occurrence found by
    the left-to-right scan of [split] is replaced. *)
Definition replace (old new s : string) : string :=
  join new (split old s).

(** Characters for which [str.isspace] holds, by UTF-8 encoding:
    U+0009..000D, U+001C..001F, U+0020 (one byte); U+0085, U+00A0 (C2 xx);
    U+1680, U+2000..200A, U+2028, U+2029, U+202F, U+205F, U+3000. *)
Definition space1 (a : ascii) : bool :=
  let n := nat_of_ascii a in
  ((9 <=? n) && (n <=? 13) || (28 <=? n) && (n <=? 32))%nat.

Definition space2 (a b : ascii) : bool :=
  let m := nat_of_ascii a in
  let n := nat_of_ascii b in
  ((m =? 194) && ((n =? 133) || (n =? 160)))%nat.

Definition space3 (a b c : ascii) : bool :=
  let l := nat_of_ascii a in
  let m := nat_of_ascii b in
  let n := nat_of_ascii c in
  ((l =? 225) && (m =? 154) && (n =? 128)
   || (l =? 226) && (m =? 128)
      && ((128 <=? n) && (n <=? 138) || (n =? 168) || (n =? 169) || (n =? 175))
   || (l =? 226) && (m =? 129) && (n =? 159)
   || (l =? 227) && (m =? 128) && (n =? 128))%nat.

(** Dropping leading whitespace, the encodings being recognised by [w2] and
    [w3]: [lstrip] reads them forwards, [rstrip] backwards on the reversed
    text. *)
Fixpoint drop_space (w2 : ascii -> ascii -> bool)
    (w3 : ascii -> ascii -> ascii -> bool) (s : string) : string :=
  match s with
  | EmptyString => s
  | String a s1 =>
      if space1 a then drop_space w2 w3 s1
      else
        match s1 with
        | EmptyString => s
        | String b s2 =>
            if w2 a b then drop_space w2 w3 s2
            else
              match s2 with
              | EmptyString => s
              | String c s3 => if w3 a b c then drop_space w2 w3 s3 else s
              end
        end
  end.

Definition lstrip (s : string) : string := drop_space space2 space3 s.

Definition rstrip (s : string) : string :=
  rev (drop_space (fun b a => space2 a b) (fun c b a => space3 a b c) (rev s)).

(** [s.strip()] *)
Definition strip (s : string) : string := rstrip (lstrip s).

(** [s.lower()] on the ASCII letters.  Outside ASCII, [str.lower] yields
    non-ASCII text or, for U+212A and U+0130, a [k] and an [i]; the only use
    is the comparison with ["present"], which is unaffected. *)
Definition lower_char (a : ascii) : ascii :=
  let n := nat_of_ascii a in
  if ((65 <=? n) && (n <=? 90))%nat then ascii_of_nat (n + 32) else a.

Fixpoint lower (s : string) : string :=
  match s with
  | EmptyString => EmptyString
  | String a s' => String (lower_char a) (lower s')
  end.

End Str.

(** ** The fragment of [re] used by the program

    Patterns are built from literal text, a starred one-character class
    (greedy [c*] or lazy [c*?]), capturing groups, concatenation, and the
    anchors [^] and [$] (without [re.MULTILINE]).  Matching is the
    backtracking search of [re]: alternatives are tried in priority order and
    the first one for which the rest of the pattern succeeds is kept.  A
    class reads one byte; the literals that end a starred run are ASCII, so
    a run never ends inside the encoding of a character. *)

Module Re.

Inductive regex : Type :=
| Lit (s : string)
| Star (greedy : bool) (cls : ascii -> bool)
| Group (r : regex)
| Cat (r1 r2 : regex)
| Caret
| Dollar.

(** Matching state: offset in the subject, text still to be read, and the
    groups closed so far (in closing order; groups are never nested here). *)
Record mstate : Type := MState {
  pos : nat;
  rest : string;
  caps : list string
}.

Section Matcher.
Context {A : Type}.

(** [c*]: the longest run first, then shorter ones. *)
Fixpoint star_greedy (cls : ascii -> bool) (p : nat) (s : string)
    (k : nat -> string -> option A) : option A :=
  match s with
  | String c s' =>
      if cls c then
        match star_greedy cls (S p) s' k with
        | Some r => Some r
        | None => k p s
        end
      else k p s
  | EmptyString => k p s
  end.

(** [c*?]: the empty run first, then longer ones. *)
Fixpoint star_lazy (cls : ascii -> bool) (p : nat) (s : string)
    (k : nat -> string -> option A) : option A :=
  match k p s with
  | Some r => Some r
  | None =>
      match s with
      | String c s' => if cls c then star_lazy cls (S p) s' k else None
      | EmptyString => None
      end
  end.

Fixpoint rmatch (r : regex) (st : mstate) (k : mstate -> option A)
  : option A :=
  match r with
  | Lit l =>
      match Str.strip_prefix l (rest st) with
      | Some s' => k (MState (pos st + String.length l) s' (caps st))
      | None => None
      end
  | Star g cls =>
      (if g then star_greedy else star_lazy) cls (pos st) (rest st)
        (fun p s => k (MState p s (caps st)))
  | Group r1 =>
      rmatch r1 st (fun st' =>
        k (MState (pos st') (rest st')
             (caps st' ++ [String.substring 0 (pos st' - pos st) (rest st)])))
  | Cat r1 r2 => rmatch r1 st (fun st' => rmatch r2 st' k)
  | Caret => if Nat.eqb (pos st) 0 then k st else None
  | Dollar =>
      if String.eqb (rest st) "" || String.eqb (rest st) (String (Str.chr 10) "")
      then k st else None
  end.
End Matcher.

(** A match found by [re.search]: where it starts, where it ends, what
    follows it, and its groups. *)
Record rematch : Type := ReMatch {
  m_start : nat;
  m_end : nat;
  m_after : string;
  m_groups : list string
}.

(** [re.search(r, s)]: the leftmost start at which [r] matches. *)
Fixpoint search_from (r : regex) (p : nat) (s : string) : option rematch :=
  match rmatch r (MState p s []) (fun st => Some st) with
  | Some st => Some (ReMatch p (pos st) (rest st) (caps st))
  | None =>
      match s with
      | String _ s' => search_from r (S p) s'
      | EmptyString => None
      end
  end.

Definition search (r : regex) (s : string) : option rematch :=
  search_from r 0 s.

(** [re.sub(r, repl, s, 1)] for a replacement text without group
    references: the first match, if any, is replaced. *)
Definition sub1 (r : regex) (repl s : string) : string :=
  match search r s with
  | Some m => String.substring 0 (m_start m) s ++ repl ++ m_after m
  | None => s
  end.

(** [.] without [re.DOTALL]: any character but the line feed. *)
Definition dot (c : ascii) : bool := negb (Ascii.eqb c (Str.chr 10)).

(** [[^x]] *)
Definition isnt (x : ascii) (c : ascii) : bool := negb (Ascii.eqb c x).

Fixpoint cat (l : list regex) : regex :=
  match l with
  | [] => Lit ""
  | [r] => r
  | r :: l' => Cat r (cat l')
  end.

End Re.

(** ** [datetime] and [timedelta] *)

Module Datetime.

(** A [tzinfo] attribute: the identity of the object, and what its
    [utcoffset] returns for the datetime carrying it (microseconds). *)
Record tzinfo : Type := TzInfo {
  tz_obj : positive;
  tz_utcoffset : option Z
}.

Record datetime : Type := DateTime {
  year : Z;
  month : Z;
  day : Z;
  hour : Z;
  minute : Z;
  second : Z;
  microsecond : Z;
  tz : option tzinfo
}.

Definition is_leap (y : Z) : bool :=
  (y mod 4 =? 0) && (negb (y mod 100 =? 0) || (y mod 400 =? 0)).

Definition days_in_month (y m : Z) : Z :=
  if m =? 2 then (if is_leap y then 29 else 28)
  else if (m =? 4) || (m =? 6) || (m =? 9) || (m =? 11) then 30
  else 31.

Definition days_before_year (y : Z) : Z :=
  let y1 := y - 1 in
  y1 * 365 + y1 / 4 - y1 / 100 + y1 / 400.

(** Days of the year before the first of month [m]. *)
Definition days_before_month (y m : Z) : Z :=
  nth (Z.to_nat m) [0; 0; 31; 59; 90; 120; 151; 181; 212; 243; 273; 304; 334] 0
  + (if (2 <? m) && is_leap y then 1 else 0).

(** [date.toordinal()]: 1 for 0001-01-01. *)
Definition toordinal (d : datetime) : Z :=
  days_before_year (year d) + days_before_month (year d) (month d) + day d.

(** The fields of a value that [datetime] can hold. *)
Definition valid (d : datetime) : Prop :=
  1 <= year d <= 9999 /\ 1 <= month d <= 12
  /\ 1 <= day d <= days_in_month (year d) (month d)
  /\ 0 <= hour d < 24 /\ 0 <= minute d < 60 /\ 0 <= second d < 60
  /\ 0 <= microsecond d < 1000000.

(** A [timedelta] is kept as its length in microseconds; [days] is the
    normalised [days] attribute (a floor: negative spans round down). *)
Definition timedelta : Type := Z.

Definition us_per_day : Z := 86400000000.

Definition days (t : timedelta) : Z := t / us_per_day.

(** The [timedelta] constructor refuses more than 999999999 days. *)
Definition new_delta (us : Z) : result timedelta :=
  if Z.abs (days us) <=? 999999999 then Ok us else Raise OverflowError.

Definition utcoffset (d : datetime) : option Z :=
  match tz d with
  | Some t => tz_utcoffset t
  | None => None
  end.

Definition same_tzinfo (a b : datetime) : bool :=
  match tz a, tz b with
  | None, None => true
  | Some t, Some u => Pos.eqb (tz_obj t) (tz_obj u)
  | _, _ => false
  end.

(** [a - b] for two datetimes. *)
Definition sub (a b : datetime) : result timedelta :=
  let base :=
    ((toordinal a - toordinal b) * 86400
     + ((second a + minute a * 60 + hour a * 3600)
        - (second b + minute b * 60 + hour b * 3600))) * 1000000
    + (microsecond a - microsecond b) in
  if same_tzinfo a b then new_delta base
  else
    match utcoffset a, utcoffset b with
    | None, None => new_delta base
    | Some oa, Some ob =>
        r ← new_delta base;
        if oa =? ob then Ok r else new_delta (r - (oa - ob))
    | _, _ => Raise TypeError
    end.

(** [datetime.now()]: the clock reading, without [tzinfo]. *)
Definition naive (d : datetime) : datetime :=
  DateTime (year d) (month d) (day d) (hour d) (minute d) (second d)
    (microsecond d) None.

End Datetime.

(** ** [float]: binary64 arithmetic and [round] *)

Module Float.

Definition prec : Z := 53.
Definition emax : Z := 1024.

(** [float(n)] for an [int]: the nearest binary64, ties to even.  Python
    raises [OverflowError] from 2^1024 on; a span is below 3652059 days and
    a list holds fewer than 2^63 items, so the totals converted here stay
    below 2^85 and the conversion is exact or rounded, never out of range. *)
Definition of_int (n : Z) : spec_float := binary_normalize prec emax n 0 false.

Definition div (x y : spec_float) : spec_float := SFdiv prec emax x y.

(** The literal [365.25] = 1461 / 4. *)
Definition c365_25 : spec_float := binary_normalize prec emax 1461 (-2) false.

(** Nearest integer to [num / den], ties to even ([0 < den]). *)
Definition div_half_even (num den : Z) : Z :=
  let q := num / den in
  let r := num mod den in
  match 2 * r ?= den with
  | Lt => q
  | Gt => q + 1
  | Eq => if Z.even q then q else q + 1
  end.

(** [round(x, ndigits)] for [0 <= ndigits]: the exact value of [x] is
    rounded to [ndigits] decimals, ties to even, and the decimal is read
    back as the nearest binary64; zeros, infinities and NaN are returned
    as they are, and so is a float without fractional bits. *)
Definition round (x : spec_float) (ndigits : nat) : spec_float :=
  match x with
  | S754_finite s m e =>
      if 0 <=? e then x
      else
        let p := 10 ^ Z.of_nat ndigits in
        match div_half_even (Z.pos m * p) (2 ^ (- e)) with
        | Z.pos n => div (S754_finite s n 0) (of_int p)
        | _ => S754_zero s
        end
  | _ => x
  end.

(** [x < 0.0] *)
Definition is_negative (x : spec_float) : bool :=
  SFltb x (S754_zero false).

(** The sign bit is clear and the value is a number: [x] is [+0.0], a
    positive finite float or [+inf]. *)
Definition nonneg (x : spec_float) : bool :=
  match x with
  | S754_zero s | S754_infinity s | S754_finite s _ _ => negb s
  | S754_nan => false
  end.

End Float.

Import Re Datetime.

Definition nl : string := String (Str.chr 10) "".
Definition dq : string := String (Str.chr 34) "".
Definition quoted (s : string) : string := dq ++ s ++ dq.

(** ** Experience entries *)

(** An entry of the [experience] list: a [dict] of the decoded JSON object
    (keys to text), or a [str]. *)
Inductive entry : Type :=
| Structured (d : gmap string string)
| FreeText (s : string).

(** [r"\((.*?)\)"] *)
Definition paren_re : regex :=
  cat [Lit "("; Group (Star false dot); Lit ")"].

(** [r"Title: (.*?)\n.*Duration: (.*?)\n"] *)
Definition title_re : regex :=
  cat [Lit "Title: "; Group (Star false dot); Lit nl; Star true dot;
       Lit "Duration: "; Group (Star false dot); Lit nl].

(** [match.group(i + 1)] *)
Definition group (m : rematch) (i : nat) : string := nth i (m_groups m) "".

(** [a, b = l] *)
Definition unpack2 {A : Type} (l : list A) : result (A * A) :=
  match l with
  | [a; b] => Ok (a, b)
  | _ => Raise ValueError
  end.

(** ** [calculate_experience] *)

Section Experience.

(** [parse now s] is [dateutil.parser.parse(s, fuzzy=True)] called while the
    clock reads [now] (the parser takes the fields missing from the text
    from today's date). *)
Variable parse : datetime -> string -> result datetime.

(** The reading of the clock during the call. *)
Variable now : datetime.

(** The duration text of an entry (the first statement of the loop body). *)
Definition entry_duration (e : entry) : string :=
  match e with
  | Structured d => default "" (d !! "duration")
  | FreeText s =>
      match search paren_re s with
      | Some duration_match => group duration_match 0
      | None => ""
      end
  end.

Definition has_separator (duration : string) : bool :=
  Str.contains "-" duration || Str.contains "–" duration.

Definition separator_of (duration : string) : string :=
  if Str.contains "-" duration then "-" else "–".

(** [start_str, end_str = map(str.strip, duration.split(separator))] *)
Definition split_duration (duration : string) : result (string * string) :=
  unpack2 (map Str.strip (Str.split (separator_of duration) duration)).

(** The body of the [try]: the new value of [total_days], or the exception
    that leaves the block. *)
Definition try_body (total_days : Z) (duration : string) : result Z :=
  if has_separator duration then
    '(start_str, end_str) ← split_duration duration;
    end_date ← (if String.eqb (Str.lower end_str) "present"
                then Ok (naive now)
                else parse now end_str);
    start_date ← parse now start_str;
    delta ← Datetime.sub end_date start_date;
    Ok (total_days + days delta)
  else Ok total_days.

(** One turn of the loop; [except Exception: continue] keeps [total_days]. *)
Definition loop_step (total_days : Z) (e : entry) : Z :=
  match try_body total_days (entry_duration e) with
  | Ok t => t
  | Raise _ => total_days
  end.

Definition calculate_experience (experience_entries : list entry) : spec_float :=
  let total_days := fold_left loop_step experience_entries 0 in
  Float.round (Float.div (Float.of_int total_days) Float.c365_25) 2.

End Experience.

(** ** [format_experience] *)

(** What one turn of the loop appends to [formatted]. *)
Definition format_entry (e : entry) : string :=
  match e with
  | Structured d =>
      let title := default "N/A" (d !! "title") in
      let duration := default "N/A" (d !! "duration") in
      title ++ " (" ++ duration ++ ")"
  | FreeText s =>
      match search title_re s with
      | Some m =>
          let title := group m 0 in
          let duration := group m 1 in
          Str.strip title ++ " (" ++ Str.strip duration ++ ")"
      | None => s
      end
  end.

(** The list [formatted] when the loop ends. *)
Definition formatted_of (experience : list entry) : list string :=
  fold_left (fun (formatted : list string) e => (formatted ++ [format_entry e])%list)
    experience [].

Definition format_experience (experience : list entry) : string :=
  Str.join ", " (formatted_of experience).

(** ** [parse_resume_with_gemini] *)

(** What [json_repair.loads] returns: a decoded JSON value ([None] is
    [JNull]). *)
#[warnings="-register-all"] Inductive json : Type :=
| JNull
| JBool (b : bool)
| JInt (n : Z)
| JFloat (x : spec_float)
| JStr (s : string)
| JList (l : list json)
| JDict (d : list (string * json)).

(** Truth value of an object, as tested by [if not data]. *)
Definition truthy (v : json) : bool :=
  match v with
  | JNull => false
  | JBool b => b
  | JInt n => negb (n =? 0)
  | JFloat (S754_zero _) => false
  | JFloat _ => true
  | JStr s => negb (String.eqb s "")
  | JList l => match l with [] => false | _ => true end
  | JDict d => match d with [] => false | _ => true end
  end.

Definition prompt (resume_text : string) : string :=
  Str.join nl
    [ "";
      "    Analyze this resume and return STRICT VALID JSON with this structure:";
      "    {";
      "        " ++ quoted "name" ++ ": " ++ quoted "full name" ++ ",";
      "        " ++ quoted "email" ++ ": " ++ quoted "email address" ++ ",";
      "        " ++ quoted "phone" ++ ": " ++ quoted "phone number" ++ ",";
      "        " ++ quoted "skills" ++ ": [" ++ quoted "list" ++ ", "
        ++ quoted "of" ++ ", " ++ quoted "skills" ++ "],";
      "        " ++ quoted "experience" ++ ": [";
      "            {";
      "                " ++ quoted "title" ++ ": " ++ quoted "job title" ++ ",";
      "                " ++ quoted "duration" ++ ": " ++ quoted "MM/YYYY - MM/YYYY";
      "            }";
      "        ]";
      "    }";
      "";
      "    RULES:";
      "    1. Duration format must be " ++ quoted "MM/YYYY - MM/YYYY";
      "    2. Use '-' as date separator";
      "    3. Convert " ++ quoted "Present" ++ " to current month/year";
      "    4. Include ALL experience entries";
      "";
      "    Resume Text:";
      "    " ++ resume_text;
      "    " ].

(** [r'^[^{]*{'] and [r'}[^}]*$'] (the flag [re.DOTALL] of the calls has no
    effect: neither pattern has a dot). *)
Definition head_re : regex := cat [Caret; Star true (isnt "{"); Lit "{"].
Definition tail_re : regex := cat [Lit "}"; Star true (isnt "}"); Dollar].

Definition fence : string := "```".

(** The three cleaning statements. *)
Definition clean (raw_output : string) : string :=
  let cleaned_output := sub1 head_re "{" raw_output in
  let cleaned_output := sub1 tail_re "}" cleaned_output in
  Str.replace fence "" (Str.replace (fence ++ "json") "" (Str.strip cleaned_output)).

Section Sanitizer.

(** [genai.GenerativeModel('gemini-pro').generate_content(prompt).text] *)
Variable generate_content : string -> result string.

(** [json_repair.loads] *)
Variable loads : string -> result json.

(** The rest of the [try] block once [raw_output] is known; an exception
    makes the function return [None]. *)
Definition sanitize (raw_output : string) : json :=
  match loads (clean raw_output) with
  | Ok v => v
  | Raise _ => JNull
  end.

Definition parse_resume_with_gemini (resume_text : string) : json :=
  match generate_content (prompt resume_text) with
  | Ok raw_output => sanitize raw_output
  | Raise _ => JNull
  end.

End Sanitizer.

(** ** The two libraries on the texts of the examples *)

(** What [dateutil] builds from a text that gives only a month and a year:
    the other fields come from the default, today at 00:00, the day being
    cut down to the length of the month. *)
Definition dateutil_month_year (now : datetime) (y m : Z) : datetime :=
  DateTime y m (Z.min (day now) (days_in_month y m)) 0 0 0 0 None.

Definition digit (c : ascii) : option Z :=
  let n := nat_of_ascii c in
  if ((48 <=? n) && (n <=? 57))%nat then Some (Z.of_nat (n - 48)) else None.

(** [dateutil.parser.parse] restricted to the format the prompt asks for,
    [MM/YYYY] with a month 01..12 and a year 1000..9999; any other text is
    outside this sample and reported as a parser error. *)
Definition parse_month_year (now : datetime) (s : string) : result datetime :=
  match s with
  | String m1 (String m2 (String sl (String y1 (String y2 (String y3 (String y4 "")))))) =>
      match digit m1, digit m2, digit y1, digit y2, digit y3, digit y4 with
      | Some a, Some b, Some c, Some d, Some e, Some f =>
          let m := 10 * a + b in
          let y := 1000 * c + 100 * d + 10 * e + f in
          if Ascii.eqb sl "/" && (1 <=? m) && (m <=? 12) && (1000 <=? y)
          then Ok (dateutil_month_year now y m)
          else Raise ParserError
      | _, _, _, _, _, _ => Raise ParserError
      end
  | _ => Raise ParserError
  end.

(** A clock reading used in the examples: 2023-01-15 12:30:00. *)
Definition clock_2023_01_15 : datetime := DateTime 2023 1 15 12 30 0 0 None.

(** [json_repair.loads] on three valid JSON documents, where it returns what
    [json.loads] returns; any other text is outside this sample. *)
Definition doc_a : string := "{" ++ quoted "a" ++ ":1}".
Definition doc_b_a : string :=
  "{" ++ quoted "b" ++ ":" ++ nl ++ doc_a ++ nl ++ "}".

Definition json_loads_sample (s : string) : result json :=
  if String.eqb s doc_a then Ok (JDict [("a", JInt 1)])
  else if String.eqb s doc_b_a then Ok (JDict [("b", JDict [("a", JInt 1)])])
  else if String.eqb s "[1]" then Ok (JList [JInt 1])
  else Raise (OtherError "outside the sample").

(** Float constants of the statements. *)
Definition float_1_0 : spec_float := Float.of_int 1.
Definition float_3_0 : spec_float := Float.of_int 3.
Definition float_minus_1_0 : spec_float := Float.of_int (-1).

(** ** Specification-side notions *)

Section Spans.

Variable parse : datetime -> string -> result datetime.
Variable now : datetime.

(** The span of a duration text in days when it is parsed with success:
    the [try] body reaches [total_days += delta.days]. *)
Definition parsed_span (duration : string) : option Z :=
  if has_separator duration then
    match try_body parse now 0 duration with
    | Ok d => Some d
    | Raise _ => None
    end
  else None.

(** Total of the spans of the entries that parse. *)
Fixpoint total_span (entries : list entry) : Z :=
  match entries with
  | [] => 0
  | e :: l => default 0 (parsed_span (entry_duration e)) + total_span l
  end.

End Spans.

(** The sign carried by a float that is a number. *)
Definition has_sign (s : bool) (x : spec_float) : Prop :=
  match x with
  | S754_zero s' | S754_infinity s' | S754_finite s' _ _ => s' = s
  | S754_nan => False
  end.

(** The rule of the specification for the split point: the first
    occurrence of either separator. *)
Fixpoint cut_at_first_separator (cur s : string) : option (string * string) :=
  match s with
  | EmptyString => None
  | String c s' =>
      match Str.strip_prefix "-" s, Str.strip_prefix "–" s with
      | Some t, _ => Some (Str.rev cur, t)
      | None, Some t => Some (Str.rev cur, t)
      | None, None => cut_at_first_separator (String c cur) s'
      end
  end.

Definition split_at_first_separator (duration : string)
  : option (string * string) :=
  match cut_at_first_separator "" duration with
  | Some (a, b) => Some (Str.strip a, Str.strip b)
  | None => None
  end.

(** [sep] starts at no point of [a] in the text [a ++ tail]. *)
Fixpoint no_start (sep a tail : string) : bool :=
  match a with
  | EmptyString => true
  | String _ a' => negb (Str.startswith sep (a ++ tail)) && no_start sep a' tail
  end.

(** The rendering ["<title> (<duration>)"]. *)
Definition render (title duration : string) : string :=
  title ++ " (" ++ duration ++ ")".

(** [if not data]: the orchestrator counts the file as failed. *)
Definition is_failure (data : json) : bool := negb (truthy data).

(** A payload inside a fenced block with a language tag ([""] for none),
    with prose before and after. *)
Definition wrapped (prose1 tag payload prose2 : string) : string :=
  prose1 ++ fence ++ tag ++ nl ++ payload ++ nl ++ fence ++ prose2.

(** The text from its first [c] on; the whole text when it has no [c]. *)
Fixpoint drop_until (c : ascii) (s : string) : option string :=
  match s with
  | EmptyString => None
  | String a s' => if Ascii.eqb a c then Some s else drop_until c s'
  end.

Definition from_first (c : ascii) (s : string) : string :=
  default s (drop_until c s).

(** The text up to its last [c]; the whole text when it has no [c]. *)
Fixpoint keep_until_last (c : ascii) (s : string) : option string :=
  match s with
  | EmptyString => None
  | String a s' =>
      match keep_until_last c s' with
      | Some t => Some (String a t)
      | None => if Ascii.eqb a c then Some (String a "") else None
      end
  end.

Definition upto_last (c : ascii) (s : string) : string :=
  default s (keep_until_last c s).

(** What the caller gets from a call of the repairer. *)
Definition outcome (r : result json) : json :=
  match r with
  | Ok v => v
  | Raise _ => JNull
  end.

(** The last two cleaning statements. *)
Definition unfence (s : string) : string :=
  Str.replace fence "" (Str.replace (fence ++ "json") "" (Str.strip s)).

(** Every character of [s] is in the class [cls]. *)
Fixpoint all_chars (cls : ascii -> bool) (s : string) : bool :=
  match s with
  | EmptyString => true
  | String c s' => cls c && all_chars cls s'
  end.

(** A star over [cls] reads nothing of [s]: [s] is empty or begins outside
    the class. *)
Definition stops (cls : ascii -> bool) (s : string) : Prop :=
  match s with
  | EmptyString => True
  | String c _ => cls c = false
  end.

(** A single structured entry with the given title and duration. *)
Definition job (title duration : string) : entry :=
  Structured {[ "title" := title; "duration" := duration ]}.

(** ** [reset_session] *)

Definition keys_to_reset : list string :=
  ["uploaded_files"; "parsed_data"; "file_uploader"].

(** [st.session_state] is a mapping from keys to values of any kind. *)
Definition reset_session {V : Type} (session_state : gmap string V)
  : gmap string V :=
  fold_left
    (fun st key =>
       match st !! key with
       | Some _ => delete key st
       | None => st
       end)
    keys_to_reset session_state.

(** ** [extract_text_from_file] *)

(** An uploaded file: its name, its MIME type and its bytes. *)
Record upload : Type := Upload {
  file_name : string;
  file_type : string;
  file_body : string
}.

Definition pdf_type : string := "application/pdf".
Definition docx_type : string :=
  "application/vnd.openxmlformats-officedocument.wordprocessingml.document".

(** [for page in pages: text += page.extract_text()], a page being what
    its [extract_text] returns or raises. *)
Fixpoint read_pages (text : string) (pages : list (result string))
  : result string :=
  match pages with
  | [] => Ok text
  | page :: pages' => t ← page; read_pages (text ++ t) pages'
  end.

(** [for para in paragraphs: text += para.text + "\n"] *)
Definition read_paragraphs (text : string) (paragraphs : list string) : string :=
  fold_left (fun text para => text ++ para ++ nl) paragraphs text.

Section Extraction.

(** [PdfReader(file).pages], or the exception of the reader. *)
Variable pdf_reader : upload -> result (list (result string)).

(** The texts of [Document(file).paragraphs], or the exception of the
    reader. *)
Variable docx_document : upload -> result (list string).

(** [None] is Python's [None]. *)
Definition extract_text_from_file (file : upload) : option string :=
  let text := "" in
  let attempt :=
    if String.eqb (file_type file) pdf_type then
      pages ← pdf_reader file; read_pages text pages
    else if String.eqb (file_type file) docx_type then
      paragraphs ← docx_document file; Ok (read_paragraphs text paragraphs)
    else Ok text in
  match attempt with
  | Ok text => Some text
  | Raise _ => None
  end.

End Extraction.

(** ** The two experience functions on decoded JSON

    [main] calls [format_experience] and [calculate_experience] on whatever
    the repairer returned under the key ["experience"]. *)

(** [d.get(key)] on the items of a [dict]. *)
Fixpoint dfind (key : string) (d : list (string * json)) : option json :=
  match d with
  | [] => None
  | (k, v) :: d' => if String.eqb k key then Some v else dfind key d'
  end.

(** [d.get(key, dflt)] *)
Definition dget (key : string) (dflt : json) (d : list (string * json)) : json :=
  default dflt (dfind key d).

(** [d[key] = v]: the value of a key already there is replaced in place, a
    new key comes last. *)
Fixpoint dset (key : string) (v : json) (d : list (string * json))
  : list (string * json) :=
  match d with
  | [] => [(key, v)]
  | (k, x) :: d' =>
      if String.eqb k key then (k, v) :: d' else (k, x) :: dset key v d'
  end.

(** Number of bytes of the UTF-8 encoding that starts with [a]. *)
Definition char_width (a : ascii) : nat :=
  let n := nat_of_ascii a in
  if (n <? 192)%nat then 1%nat
  else if (n <? 224)%nat then 2%nat
  else if (n <? 240)%nat then 3%nat
  else 4%nat.

(** The characters of a text, each as a text of its own; [left] bytes of
    the current character [cur] (reversed) are still to come. *)
Fixpoint chars_scan (left : nat) (cur : string) (s : string) : list string :=
  match s with
  | EmptyString =>
      match cur with
      | EmptyString => []
      | _ => [Str.rev cur]
      end
  | String a s' =>
      match left with
      | S k => chars_scan k (String a cur) s'
      | O =>
          match cur with
          | EmptyString => chars_scan (Nat.pred (char_width a)) (String a "") s'
          | _ =>
              Str.rev cur
              :: chars_scan (Nat.pred (char_width a)) (String a "") s'
          end
      end
  end.

Definition chars (s : string) : list string := chars_scan 0 "" s.

(** [for x in v]: the items of a list, the characters of a text, the keys
    of a dict; nothing else can be iterated. *)
Definition py_iter (v : json) : result (list json) :=
  match v with
  | JList l => Ok l
  | JStr s => Ok (map JStr (chars s))
  | JDict d => Ok (map (fun kv => JStr (fst kv)) d)
  | _ => Raise TypeError
  end.

(** A loop whose body may raise. *)
Fixpoint foldM {A B : Type} (f : B -> A -> result B) (l : list A) (b : B)
  : result B :=
  match l with
  | [] => Ok b
  | x :: l' => b' ← f b x; foldM f l' b'
  end.

(** [needle in v] for a text [needle]. *)
Definition py_in (needle : string) (v : json) : result bool :=
  match v with
  | JStr s => Ok (Str.contains needle s)
  | JList l =>
      Ok (existsb (fun x => match x with
                            | JStr s => String.eqb s needle
                            | _ => false
                            end) l)
  | JDict d => Ok (existsb (fun kv => String.eqb (fst kv) needle) d)
  | _ => Raise TypeError
  end.

(** [sep.join(v)] *)
Definition py_join (sep : string) (v : json) : result string :=
  items ← py_iter v;
  texts ← foldM (fun (acc : list string) x =>
                   match x with
                   | JStr s => Ok (acc ++ [s])%list
                   | _ => Raise TypeError
                   end) items [];
  Ok (Str.join sep texts).

Definition attribute_error : exn := OtherError "AttributeError".

Section Untyped.

Variable parse : datetime -> string -> result datetime.
Variable now : datetime.

(** [str(v)] for a value that is not a text (the f-string formats a text as
    itself). *)
Variable py_str : json -> string.

Definition fmt (v : json) : string :=
  match v with
  | JStr s => s
  | _ => py_str v
  end.

(** One turn of the loop of [format_experience]: the item appended, or the
    [TypeError] of [re.search] on an entry that is no text. *)
Definition format_entry_json (e : json) : result string :=
  match e with
  | JDict d =>
      let title := dget "title" (JStr "N/A") d in
      let duration := dget "duration" (JStr "N/A") d in
      Ok (fmt title ++ " (" ++ fmt duration ++ ")")
  | JStr s => Ok (format_entry (FreeText s))
  | _ => Raise TypeError
  end.

Definition format_experience_json (experience : json) : result string :=
  entries ← py_iter experience;
  formatted ← foldM (fun (formatted : list string) e =>
                       item ← format_entry_json e;
                       Ok (formatted ++ [item])%list) entries [];
  Ok (Str.join ", " formatted).

(** The body of the [try] for a duration of any kind: a text goes through
    [try_body]; on a list or a dict the two [in] tests are membership tests
    and [duration.split] raises; the other values cannot be searched. *)
Definition try_body_json (total_days : Z) (duration : json) : result Z :=
  match duration with
  | JStr s => try_body parse now total_days s
  | _ =>
      hyphen ← py_in "-" duration;
      found ← (if hyphen : bool then Ok true else py_in "–" duration);
      if found : bool then Raise attribute_error else Ok total_days
  end.

(** One turn of the loop of [calculate_experience]; [re.search] stands
    before the [try] and its [TypeError] leaves the function. *)
Definition loop_step_json (total_days : Z) (e : json) : result Z :=
  match e with
  | JDict d =>
      match try_body_json total_days (dget "duration" (JStr "") d) with
      | Ok t => Ok t
      | Raise _ => Ok total_days
      end
  | JStr s => Ok (loop_step parse now total_days (FreeText s))
  | _ => Raise TypeError
  end.

Definition calculate_experience_json (experience_entries : json)
  : result spec_float :=
  entries ← py_iter experience_entries;
  total_days ← foldM loop_step_json entries 0;
  Ok (Float.round (Float.div (Float.of_int total_days) Float.c365_25) 2).

End Untyped.

(** An entry as the decoded JSON value it comes from. *)
Definition dict_of (d : gmap string string) : list (string * json) :=
  map (fun kv => (fst kv, JStr (snd kv))) (map_to_list d).

Definition to_json (e : entry) : json :=
  match e with
  | Structured d => JDict (dict_of d)
  | FreeText s => JStr s
  end.

(** An entry that is neither a dict nor a text. *)
Definition other_entry (e : json) : bool :=
  match e with
  | JDict _ | JStr _ => false
  | _ => true
  end.

(** ** The loop of [main] over the uploaded files *)

(** A row of [all_data]: the items of the dict. *)
Definition row : Type := list (string * json).

Record tally : Type := Tally {
  all_data : list row;
  success_count : nat;
  fail_count : nat
}.

Section Batch.

Variable pdf_reader : upload -> result (list (result string)).
Variable docx_document : upload -> result (list string).
Variable generate_content : string -> result string.
Variable loads : string -> result json.
Variable parse : datetime -> string -> result datetime.
Variable py_str : json -> string.

(** The clock reading while the file of the given rank is processed. *)
Variable clock : nat -> datetime.

(** The body of the [try] for one file: the row to append, [None] after a
    [continue], or the exception caught by [except Exception]. *)
Definition process_file (rank : nat) (file : upload) : result (option row) :=
  match extract_text_from_file pdf_reader docx_document file with
  | None | Some EmptyString => Ok None
  | Some text =>
      let data := parse_resume_with_gemini generate_content loads text in
      if negb (truthy data) then Ok None
      else
        match data with
        | JDict data =>
            let exp_entries := dget "experience" (JList []) data in
            experience ← format_experience_json py_str exp_entries;
            let data := dset "experience" (JStr experience) data in
            years ← calculate_experience_json parse (clock rank) exp_entries;
            let data := dset "experience_in_years" (JFloat years) data in
            skills ← py_join ", " (dget "skills" (JList []) data);
            let data := dset "skills" (JStr skills) data in
            let data := dset "filename" (JStr (file_name file)) data in
            Ok (Some data)
        | _ => Raise attribute_error
        end
  end.

(** One turn of the loop; the rank of the file is the number of files
    counted so far. *)
Definition main_step (t : tally) (file : upload) : tally :=
  match process_file (success_count t + fail_count t) file with
  | Ok (Some data) =>
      Tally (all_data t ++ [data]) (S (success_count t)) (fail_count t)
  | Ok None | Raise _ =>
      Tally (all_data t) (success_count t) (S (fail_count t))
  end.

Definition parse_resumes (files : list upload) : tally :=
  fold_left main_step files (Tally [] 0 0).

End Batch.

(** A value for which the loop of [main] goes on to build a row. *)
Definition usable (data : json) : bool :=
  match data with
  | JDict (_ :: _) => true
  | _ => false
  end.

(** The texts of the pages when every page gives one. *)
Fixpoint page_texts (pages : list (result string)) : option (list string) :=
  match pages with
  | [] => Some []
  | Ok t :: pages' => option_map (cons t) (page_texts pages')
  | Raise _ :: _ => None
  end.

(** The texts one after the other. *)
Definition concat_texts (texts : list string) : string :=
  foldr String.append "" texts.

(** The paragraphs, each closed by a line feed. *)
Definition unlines (paragraphs : list string) : string :=
  foldr (fun para acc => para ++ nl ++ acc) "" paragraphs.

(** A structured entry whose rendering can be read back: no [(] in the
    title, a duration on one line without [)]. *)
Definition reformattable (e : entry) : Prop :=
  match e with
  | Structured d =>
      Str.contains "(" (default "N/A" (d !! "title")) = false
      /\ exists duration,
           d !! "duration" = Some duration
           /\ all_chars dot duration = true
           /\ Str.contains ")" duration = false
  | FreeText _ => False
  end.

(** The largest number of days of a [timedelta]. *)
Definition max_delta_days : Z := 999999999.

(** The row that [main] makes of the dict [data] of the repairer once the
    three derived values are known. *)
Definition finished_row (data : row) (experience : string) (years : spec_float)
    (skills : string) (filename : string) : row :=
  dset "filename" (JStr filename)
    (dset "skills" (JStr skills)
       (dset "experience_in_years" (JFloat years)
          (dset "experience" (JStr experience) data))).

Definition derived_keys : list string :=
  ["experience"; "experience_in_years"; "skills"; "filename"].

(** * Properties *)

(** ** Texts *)

Section Texts.

Lemma sapp_assoc (a b c : string) : (a ++ b) ++ c = a ++ (b ++ c).
Proof. induction a as [|x a IH]; simpl; [reflexivity|now rewrite IH]. Qed.

Lemma sapp_nil_l (a : string) : "" ++ a = a.
Proof. reflexivity. Qed.

Lemma sapp_cons c (a b : string) : String c a ++ b = String c (a ++ b).
Proof. reflexivity. Qed.

Lemma sapp_nil_r (a : string) : a ++ "" = a.
Proof. induction a as [|x a IH]; simpl; [reflexivity|now rewrite IH]. Qed.

Lemma slength_app (a b : string) :
  String.length (a ++ b) = (String.length a + String.length b)%nat.
Proof. induction a as [|x a IH]; simpl; [reflexivity|now rewrite IH]. Qed.

Lemma substring_app (a b : string) :
  String.substring 0 (String.length a) (a ++ b) = a.
Proof.
  induction a as [|x a IH]; simpl.
  - now destruct b.
  - now rewrite IH.
Qed.

Lemma substring_0_0 (s : string) : String.substring 0 0 s = "".
Proof. now destruct s. Qed.

Lemma rev_onto_app s : forall acc t,
  Str.rev_onto s acc ++ t = Str.rev_onto s (acc ++ t).
Proof. induction s as [|c s IH]; intros acc t; simpl; [reflexivity|apply IH]. Qed.

Lemma rev_cons c cur s :
  Str.rev (String c cur) ++ s = Str.rev cur ++ String c s.
Proof. unfold Str.rev. simpl. now rewrite !rev_onto_app. Qed.

Lemma strip_prefix_app p s : Str.strip_prefix p (p ++ s) = Some s.
Proof.
  induction p as [|a p IH]; simpl; [reflexivity|].
  now rewrite Ascii.eqb_refl.
Qed.

Lemma strip_prefix_Some p : forall s t,
  Str.strip_prefix p s = Some t -> s = p ++ t.
Proof.
  induction p as [|a p IH]; simpl; intros s t H.
  - congruence.
  - destruct s as [|b s]; [discriminate|].
    destruct (Ascii.eqb_spec a b) as [->|]; [|discriminate].
    now rewrite (IH _ _ H).
Qed.

Lemma startswith_char c a s :
  Str.startswith (String c "") (String a s) = Ascii.eqb c a.
Proof. unfold Str.startswith. simpl. now destruct (Ascii.eqb c a). Qed.

Lemma startswith_app_l m : forall a b,
  Str.startswith m a = true -> Str.startswith m (a ++ b) = true.
Proof.
  unfold Str.startswith.
  induction m as [|x m IH]; intros a b H; [reflexivity|].
  destruct a as [|y a]; [discriminate|]. simpl in *.
  destruct (Ascii.eqb x y); [now apply IH|discriminate].
Qed.

Lemma startswith_longer m : forall a b,
  (String.length m <= String.length a)%nat ->
  Str.startswith m (a ++ b) = Str.startswith m a.
Proof.
  unfold Str.startswith.
  induction m as [|x m IH]; intros a b Hlen; [reflexivity|].
  destruct a as [|y a]; simpl in Hlen; [lia|].
  simpl. destruct (Ascii.eqb x y); [|reflexivity].
  apply IH. lia.
Qed.

(** A text without line feed is no prefix of [w ++ "\n" ++ s] unless it is
    a prefix of [w]. *)
Lemma startswith_before c m : forall w s,
  all_chars (isnt c) m = true ->
  Str.startswith m w = false ->
  Str.startswith m (w ++ String c s) = false.
Proof.
  unfold Str.startswith.
  induction m as [|a m IH]; intros w s Hm Hw; [discriminate|].
  simpl in Hm. apply andb_prop in Hm as [Ha Hm].
  destruct w as [|b w]; simpl.
  - unfold isnt in Ha. apply negb_true_iff in Ha. now rewrite Ha.
  - simpl in Hw. destruct (Ascii.eqb a b); [|reflexivity].
    now apply IH.
Qed.

Lemma contains_false_startswith sub s :
  Str.contains sub s = false -> Str.startswith sub s = false.
Proof. destruct s; simpl; now destruct (Str.startswith sub _). Qed.

Lemma contains_cons_false sub c s :
  Str.contains sub (String c s) = false -> Str.contains sub s = false.
Proof. simpl. now destruct (Str.startswith sub _). Qed.

Lemma contains_suffix_false sub a : forall b,
  Str.contains sub (a ++ b) = false -> Str.contains sub b = false.
Proof.
  induction a as [|x a IH]; intros b H; [exact H|].
  apply IH. exact (contains_cons_false sub x _ H).
Qed.

Lemma contains_char_cons c a s :
  Str.contains (String c "") (String a s)
  = Ascii.eqb c a || Str.contains (String c "") s.
Proof.
  change (Str.contains (String c "") (String a s))
    with (if Str.startswith (String c "") (String a s) then true
          else Str.contains (String c "") s).
  rewrite startswith_char. now destruct (Ascii.eqb c a).
Qed.

Lemma contains_char_app c a b :
  Str.contains (String c "") (a ++ b)
  = Str.contains (String c "") a || Str.contains (String c "") b.
Proof.
  induction a as [|x a IH]; simpl append.
  - reflexivity.
  - rewrite !contains_char_cons, IH. now rewrite orb_assoc.
Qed.

Lemma all_chars_app cls a b :
  all_chars cls (a ++ b) = all_chars cls a && all_chars cls b.
Proof.
  induction a as [|x a IH]; simpl; [reflexivity|].
  now rewrite IH, andb_assoc.
Qed.

Lemma no_char_all_isnt c s :
  Str.contains (String c "") s = false -> all_chars (isnt c) s = true.
Proof.
  induction s as [|a s IH]; [reflexivity|].
  rewrite contains_char_cons. intros H.
  apply orb_false_elim in H as [Ha Hs]. simpl. unfold isnt at 1.
  rewrite Ascii.eqb_sym, Ha. simpl. now apply IH.
Qed.

End Texts.

(** ** Splitting a text at a separator *)

Section Splitting.

Variable c0 : ascii.
Variable sep' : string.
Let sep : string := String c0 sep'.

Lemma split_scan_skip u : forall cur t,
  Str.split_scan sep (String.length u) cur (u ++ t)
  = Str.split_scan sep 0 cur t.
Proof. induction u as [|c u IH]; intros cur t; simpl; [reflexivity|apply IH]. Qed.

Lemma split_scan_end cur : Str.split_scan sep 0 cur "" = [Str.rev cur].
Proof. reflexivity. Qed.

Lemma split_scan_match cur t :
  Str.split_scan sep 0 cur (sep ++ t)
  = Str.rev cur :: Str.split_scan sep 0 "" t.
Proof.
  unfold sep at 2. rewrite sapp_cons.
  change (Str.split_scan sep 0 cur (String c0 (sep' ++ t)))
    with (if Str.startswith sep (sep ++ t)
          then Str.rev cur
               :: Str.split_scan sep (String.length sep') "" (sep' ++ t)
          else Str.split_scan sep 0 (String c0 cur) (sep' ++ t)).
  unfold Str.startswith. rewrite strip_prefix_app.
  now rewrite split_scan_skip.
Qed.

Lemma split_scan_nomatch cur c s :
  Str.startswith sep (String c s) = false ->
  Str.split_scan sep 0 cur (String c s)
  = Str.split_scan sep 0 (String c cur) s.
Proof. simpl. now intros ->. Qed.

Lemma startswith_sep_inv s :
  Str.startswith sep s = true -> exists t, s = sep ++ t.
Proof.
  unfold Str.startswith. destruct (Str.strip_prefix sep s) as [t|] eqn:E;
    [|discriminate].
  intros _. exists t. now apply strip_prefix_Some.
Qed.

Lemma no_start_contains a tail :
  no_start sep a tail = true -> Str.contains sep a = false.
Proof.
  induction a as [|c a IH]; [reflexivity|].
  intros H. cbn [no_start] in H. apply andb_prop in H as [H1 H2].
  apply negb_true_iff in H1.
  change (Str.contains sep (String c a))
    with (if Str.startswith sep (String c a) then true else Str.contains sep a).
  destruct (Str.startswith sep (String c a)) eqn:E.
  - now rewrite (startswith_app_l _ _ tail E) in H1.
  - now apply IH.
Qed.

(** Without an occurrence the text is one piece. *)
Lemma split_scan_whole s : forall cur,
  Str.contains sep s = false ->
  Str.split_scan sep 0 cur s = [Str.rev cur ++ s].
Proof.
  induction s as [|c s IH]; intros cur H.
  - now rewrite sapp_nil_r.
  - rewrite split_scan_nomatch by now apply contains_false_startswith.
    rewrite IH by exact (contains_cons_false _ _ _ H).
    now rewrite rev_cons.
Qed.

(** The first piece ends where the separator first starts. *)
Lemma split_scan_first a : forall cur b,
  no_start sep a (sep ++ b) = true ->
  Str.split_scan sep 0 cur (a ++ sep ++ b)
  = (Str.rev cur ++ a) :: Str.split_scan sep 0 "" b.
Proof.
  induction a as [|c a IH]; intros cur b H.
  - rewrite sapp_nil_l, sapp_nil_r. apply split_scan_match.
  - cbn [no_start] in H. apply andb_prop in H as [H1 H2].
    apply negb_true_iff in H1. rewrite sapp_cons in *.
    rewrite split_scan_nomatch by exact H1.
    rewrite IH by exact H2. now rewrite rev_cons.
Qed.

(** Either way of leaving the scan. *)
Lemma split_scan_cases s : forall cur,
  (Str.contains sep s = false
   /\ Str.split_scan sep 0 cur s = [Str.rev cur ++ s])
  \/ (exists a b, s = a ++ sep ++ b
        /\ no_start sep a (sep ++ b) = true
        /\ Str.split_scan sep 0 cur s
           = (Str.rev cur ++ a) :: Str.split_scan sep 0 "" b).
Proof.
  induction s as [|c s IH]; intros cur.
  - left. split; [reflexivity|]. now rewrite sapp_nil_r.
  - destruct (Str.startswith sep (String c s)) eqn:E.
    + right. destruct (startswith_sep_inv _ E) as [t Ht].
      exists "", t. rewrite Ht, sapp_nil_l, sapp_nil_r.
      repeat split. apply split_scan_match.
    + rewrite split_scan_nomatch by exact E.
      destruct (IH (String c cur)) as [[Hc Hs]|(a & b & Hab & Hn & Hs)].
      * left. split.
        -- change (Str.contains sep (String c s))
             with (if Str.startswith sep (String c s) then true
                   else Str.contains sep s).
           now rewrite E.
        -- now rewrite Hs, rev_cons.
      * right. exists (String c a), b. rewrite sapp_cons, <- Hab.
        repeat split.
        -- cbn [no_start]. rewrite sapp_cons, <- Hab, E. exact Hn.
        -- now rewrite Hs, rev_cons.
Qed.

Lemma split_scan_not_nil s cur : Str.split_scan sep 0 cur s <> [].
Proof.
  destruct (split_scan_cases s cur) as [[_ ->]|(a & b & _ & _ & ->)];
    discriminate.
Qed.

(** Exactly two pieces: the separator occurs once. *)
Lemma split_two d a b :
  Str.split sep d = [a; b]
  <-> d = a ++ sep ++ b
      /\ no_start sep a (sep ++ b) = true
      /\ Str.contains sep b = false.
Proof.
  unfold Str.split. split.
  - intros H.
    destruct (split_scan_cases d "") as [[_ Hs]|(a' & b' & Hd & Hn & Hs)];
      rewrite Hs in H; [discriminate|].
    injection H as Ha Hb. change (Str.rev "" ++ a') with a' in Ha. subst a'.
    destruct (split_scan_cases b' "") as [[Hc Hs']|(a2 & b2 & _ & _ & Hs')];
      rewrite Hs' in Hb.
    + injection Hb as Hb. change (Str.rev "" ++ b') with b' in Hb. now subst b'.
    + injection Hb as _ Hb. now apply split_scan_not_nil in Hb.
  - intros (-> & Hn & Hb).
    rewrite split_scan_first by exact Hn.
    now rewrite split_scan_whole by exact Hb.
Qed.

End Splitting.

Section Separators.

Lemma hyphen_no_start a tail :
  Str.contains "-" a = false -> no_start "-" a tail = true.
Proof.
  induction a as [|c a IH]; [reflexivity|].
  rewrite contains_char_cons. intros H.
  apply orb_false_elim in H as [Hc Ha].
  cbn [no_start]. rewrite sapp_cons, startswith_char, Hc. now apply IH.
Qed.

Lemma endash_no_start a b :
  Str.contains "–" a = false -> no_start "–" a ("–" ++ b) = true.
Proof.
  induction a as [|c a IH]; [reflexivity|].
  intros H. cbn [no_start].
  rewrite (IH (contains_cons_false _ _ _ H)), andb_true_r.
  apply negb_true_iff. apply contains_false_startswith in H.
  destruct a as [|c2 [|c3 a]].
  - unfold Str.startswith. simpl. now destruct (Ascii.eqb _ c).
  - unfold Str.startswith. simpl.
    destruct (Ascii.eqb _ c); [|reflexivity].
    now destruct (Ascii.eqb _ c2).
  - rewrite startswith_longer; [exact H|]. simpl. lia.
Qed.

Lemma unpack2_strip l start_str end_str :
  unpack2 (map Str.strip l) = Ok (start_str, end_str)
  <-> exists a b, l = [a; b] /\ start_str = Str.strip a /\ end_str = Str.strip b.
Proof.
  split.
  - destruct l as [|a [|b [|c l]]]; simpl; try discriminate.
    intros H. injection H as <- <-. now exists a, b.
  - intros (a & b & -> & -> & ->). reflexivity.
Qed.

Lemma split_once c0 sep' d start_str end_str :
  (forall a b, Str.contains (String c0 sep') a = false ->
     no_start (String c0 sep') a (String c0 sep' ++ b) = true) ->
  unpack2 (map Str.strip (Str.split (String c0 sep') d))
  = Ok (start_str, end_str)
  <-> exists a b,
        d = a ++ String c0 sep' ++ b
        /\ Str.contains (String c0 sep') a = false
        /\ Str.contains (String c0 sep') b = false
        /\ start_str = Str.strip a /\ end_str = Str.strip b.
Proof.
  intros Hsep. rewrite unpack2_strip. split.
  - intros (a & b & Hl & Hs & He). exists a, b.
    apply split_two in Hl as (Hd & Hn & Hb).
    repeat split; try assumption.
    exact (no_start_contains _ _ _ _ Hn).
  - intros (a & b & Hd & Ha & Hb & Hs & He). exists a, b.
    repeat split; try assumption.
    apply split_two. repeat split; try assumption.
    now apply Hsep.
Qed.

End Separators.

(** C2, as the program has it: [-] is the separator whenever the text holds
    one, [–] otherwise; the text is cut at every occurrence of that
    separator, and the two stripped parts come out exactly when it occurs
    once.  A text with [–] before a [-] is cut at the [-]. *)
Theorem split_duration_once duration start_str end_str :
  separator_of duration = (if Str.contains "-" duration then "-" else "–")
  /\ (split_duration duration = Ok (start_str, end_str)
      <-> exists a b,
            duration = a ++ separator_of duration ++ b
            /\ Str.contains (separator_of duration) a = false
            /\ Str.contains (separator_of duration) b = false
            /\ start_str = Str.strip a /\ end_str = Str.strip b)
  /\ (forall a b c,
        Str.contains "-" a = false ->
        Str.contains "-" b = false ->
        Str.contains "-" c = false ->
        split_duration (a ++ "–" ++ b ++ "-" ++ c)
        = Ok (Str.strip (a ++ "–" ++ b), Str.strip c)).
Proof.
  split; [reflexivity|]. split.
  - unfold split_duration, separator_of.
    destruct (Str.contains "-" duration).
    + apply split_once. intros a b. apply hyphen_no_start.
    + apply split_once. intros a b. apply endash_no_start.
  - intros a b c Ha Hb Hc. unfold split_duration, separator_of.
    replace (a ++ "–" ++ b ++ "-" ++ c) with ((a ++ "–" ++ b) ++ "-" ++ c)
      by now rewrite !sapp_assoc.
    assert (Hab : Str.contains "-" (a ++ "–" ++ b) = false).
    { rewrite !contains_char_app, Ha, Hb. reflexivity. }
    rewrite contains_char_app, Hab.
    change (Str.contains "-" ("-" ++ c)) with true. simpl orb.
    apply split_once; [intros ? ?; apply hyphen_no_start|].
    now exists (a ++ "–" ++ b), c.
Qed.

Lemma split_duration_once_witness :
  split_duration ("Jan 2019 " ++ "–" ++ " Mar" ++ "-" ++ "2021")
  = Ok (Str.strip ("Jan 2019 " ++ "–" ++ " Mar"), Str.strip "2021").
Proof.
  apply (proj2 (proj2 (split_duration_once "" "" "")));
    vm_compute; reflexivity.
Defined.

(** C2 as stated fails: in ["Jan 2019 – Mar-2021"] the en-dash comes first,
    yet the text is cut at the hyphen; and a text with two hyphens gives no
    pair at all. *)
Lemma split_not_at_first_separator :
  has_separator "Jan 2019 – Mar-2021" = true
  /\ split_at_first_separator "Jan 2019 – Mar-2021"
     = Some ("Jan 2019", "Mar-2021")
  /\ split_duration "Jan 2019 – Mar-2021" = Ok ("Jan 2019 – Mar", "2021")
  /\ split_duration "2020-01 - 2021-01" = Raise ValueError.
Proof. vm_compute. auto. Qed.

(** ** The matcher *)

Section MatcherFacts.

Context {A : Type}.
Implicit Types (k : nat -> string -> option A) (cls : ascii -> bool).

Lemma star_greedy_stop cls p s k :
  stops cls s -> star_greedy cls p s k = k p s.
Proof. destruct s as [|c s]; simpl; [reflexivity|now intros ->]. Qed.

(** A run of the class is read whole when the rest of the pattern matches
    after it. *)
Lemma star_greedy_skip cls k u : forall p s r,
  all_chars cls u = true ->
  star_greedy cls (p + String.length u) s k = Some r ->
  star_greedy cls p (u ++ s) k = Some r.
Proof.
  induction u as [|c u IH]; simpl; intros p s r Hu H.
  - now rewrite Nat.add_0_r in H.
  - apply andb_prop in Hu as [-> Hu].
    rewrite (IH (S p) s r Hu); [reflexivity|].
    now rewrite <- Nat.add_succ_comm in H.
Qed.

(** Nothing matches when the rest of the pattern fails at every point of
    the run and after it. *)
Lemma star_greedy_none cls k s : forall p,
  (forall v w q, s = v ++ w -> k q w = None) -> star_greedy cls p s k = None.
Proof.
  induction s as [|c s IH]; simpl; intros p H; [now apply (H "" "")|].
  rewrite IH.
  - rewrite (H "" (String c s)) by reflexivity. now destruct (cls c).
  - intros v w q ->. now apply (H (String c v) w).
Qed.

Lemma star_greedy_all cls k u p r :
  all_chars cls u = true ->
  k (p + String.length u)%nat "" = Some r ->
  star_greedy cls p u k = Some r.
Proof.
  intros Hu H. rewrite <- (sapp_nil_r u).
  now apply star_greedy_skip.
Qed.

(** The greedy star gives back nothing when the rest of the pattern
    matches at the start and fails at every later point of the run. *)
Lemma star_greedy_first cls k u : forall p s,
  all_chars cls u = true ->
  stops cls s ->
  (forall v c w, u = v ++ String c w ->
     k (p + String.length v + 1)%nat (w ++ s) = None) ->
  star_greedy cls p (u ++ s) k = k p (u ++ s).
Proof.
  induction u as [|c u IH]; intros p s Hu Hs Hk.
  - simpl. now apply star_greedy_stop.
  - simpl in Hu. apply andb_prop in Hu as [Hc Hu].
    simpl append. simpl star_greedy. rewrite Hc.
    rewrite (IH (S p) s Hu Hs).
    + pose proof (Hk "" c u eq_refl) as H0. simpl in H0.
      rewrite Nat.add_0_r, Nat.add_1_r in H0. now rewrite H0.
    + intros v c' w ->.
      specialize (Hk (String c v) c' w eq_refl). simpl in Hk.
      rewrite <- Hk. f_equal. lia.
Qed.

Lemma star_lazy_stop cls p s k :
  stops cls s -> star_lazy cls p s k = k p s.
Proof.
  destruct s as [|c s]; simpl; [now destruct (k p "")|].
  intros ->. now destruct (k p _).
Qed.

Lemma star_lazy_now cls p s k r :
  k p s = Some r -> star_lazy cls p s k = Some r.
Proof. destruct s; simpl; now intros ->. Qed.

(** The lazy star walks over a run at whose points the rest of the pattern
    fails. *)
Lemma star_lazy_skip cls k u : forall p s,
  all_chars cls u = true ->
  (forall v c w, u = v ++ String c w ->
     k (p + String.length v)%nat (String c w ++ s) = None) ->
  star_lazy cls p (u ++ s) k
  = star_lazy cls (p + String.length u) s k.
Proof.
  induction u as [|c u IH]; intros p s Hu Hk.
  - simpl. now rewrite Nat.add_0_r.
  - simpl in Hu. apply andb_prop in Hu as [Hc Hu].
    simpl append. simpl star_lazy.
    pose proof (Hk "" c u eq_refl) as H0. simpl in H0.
    rewrite Nat.add_0_r in H0. rewrite H0, Hc.
    rewrite (IH (S p) s Hu).
    + simpl. now rewrite Nat.add_succ_r.
    + intros v c' w ->.
      specialize (Hk (String c v) c' w eq_refl). simpl in Hk.
      now rewrite Nat.add_succ_r in Hk.
Qed.

End MatcherFacts.

Section SearchFacts.

Lemma search_from_hit r p s st :
  rmatch r (MState p s []) (fun st => Some st) = Some st ->
  search_from r p s = Some (ReMatch p (pos st) (rest st) (caps st)).
Proof. destruct s; simpl; now intros ->. Qed.

Lemma search_from_miss r p c s :
  rmatch r (MState p (String c s) []) (fun st => Some st) = None ->
  search_from r p (String c s) = search_from r (S p) s.
Proof. simpl. now intros ->. Qed.

Lemma search_from_end r p :
  rmatch r (MState p "" []) (fun st => Some st) = None ->
  search_from r p "" = None.
Proof. simpl. now intros ->. Qed.

Lemma rmatch_lit {A : Type} l p s cs (k : mstate -> option A) :
  rmatch (Lit l) (MState p (l ++ s) cs) k
  = k (MState (p + String.length l) s cs).
Proof. simpl. now rewrite strip_prefix_app. Qed.

Lemma rmatch_lit_fail {A : Type} l p s cs (k : mstate -> option A) :
  Str.startswith l s = false -> rmatch (Lit l) (MState p s cs) k = None.
Proof.
  unfold Str.startswith. simpl. now destruct (Str.strip_prefix l s).
Qed.

Lemma rmatch_cat {A : Type} r1 r2 st (k : mstate -> option A) :
  rmatch (Cat r1 r2) st k = rmatch r1 st (fun st' => rmatch r2 st' k).
Proof. reflexivity. Qed.

Lemma rmatch_cat_assoc {A : Type} r1 r2 r3 st (k : mstate -> option A) :
  rmatch (Cat r1 (Cat r2 r3)) st k
  = rmatch (Cat r1 r2) st (fun st' => rmatch r3 st' k).
Proof. reflexivity. Qed.

Lemma rmatch_group_lazy {A : Type} cls p s cs (k : mstate -> option A) :
  rmatch (Group (Star false cls)) (MState p s cs) k
  = star_lazy cls p s
      (fun p' s' => k (MState p' s' (cs ++ [String.substring 0 (p' - p) s]))).
Proof. reflexivity. Qed.

Lemma rmatch_star_greedy {A : Type} cls p s cs (k : mstate -> option A) :
  rmatch (Star true cls) (MState p s cs) k
  = star_greedy cls p s (fun p' s' => k (MState p' s' cs)).
Proof. reflexivity. Qed.

(** A lazy group in front of a literal line feed takes the rest of the
    line. *)
Lemma lazy_group_line {A : Type} u p s cs (k : mstate -> option A) :
  all_chars dot u = true ->
  rmatch (Cat (Group (Star false dot)) (Lit nl)) (MState p (u ++ nl ++ s) cs) k
  = k (MState (p + String.length u + 1) s (cs ++ [u])).
Proof.
  intros Hu. rewrite rmatch_cat, rmatch_group_lazy.
  rewrite star_lazy_skip; [|exact Hu|].
  - rewrite star_lazy_stop by reflexivity.
    rewrite (rmatch_lit nl). simpl String.length.
    now rewrite Nat.add_sub', substring_app.
  - intros v c w ->. apply rmatch_lit_fail.
    rewrite all_chars_app in Hu. apply andb_prop in Hu as [_ Hu].
    simpl in Hu. apply andb_prop in Hu as [Hc _].
    unfold dot in Hc. apply negb_true_iff in Hc.
    unfold nl. simpl. rewrite startswith_char, Ascii.eqb_sym. exact Hc.
Qed.

End SearchFacts.

(** ** Signs of binary64 results *)

Section FloatSigns.

Lemma shr_1_nonneg mrs : 0 <= shr_m mrs -> 0 <= shr_m (shr_1 mrs).
Proof.
  destruct mrs as [m r s]; simpl.
  destruct m as [|p|p]; [now simpl| |lia].
  intros _. destruct p; simpl; lia.
Qed.

Lemma iter_shr_1_nonneg p : forall mrs,
  0 <= shr_m mrs -> 0 <= shr_m (SpecFloat.iter_pos shr_1 p mrs).
Proof.
  induction p as [p IH|p IH|]; simpl; intros mrs H.
  - apply IH, IH, shr_1_nonneg, H.
  - apply IH, IH, H.
  - apply shr_1_nonneg, H.
Qed.

Lemma shr_fexp_nonneg m e l :
  0 <= m -> 0 <= shr_m (fst (shr_fexp Float.prec Float.emax m e l)).
Proof.
  intros H. unfold shr_fexp, shr.
  assert (Hm : 0 <= shr_m (shr_record_of_loc m l)) by (destruct l as [|[]]; exact H).
  destruct (_ - e); simpl; auto using iter_shr_1_nonneg.
Qed.

Lemma round_nearest_even_nonneg m l : 0 <= m -> 0 <= round_nearest_even m l.
Proof.
  intros H. destruct l as [|[]]; simpl; try lia.
  destruct (Z.even m); lia.
Qed.

Lemma binary_round_aux_sign s m e l :
  0 <= m -> has_sign s (binary_round_aux Float.prec Float.emax s m e l).
Proof.
  intros H. unfold binary_round_aux.
  pose proof (shr_fexp_nonneg m e l H) as H1.
  destruct (shr_fexp Float.prec Float.emax m e l) as [mrs' e']. simpl in H1.
  pose proof (shr_fexp_nonneg _ e' loc_Exact
                (round_nearest_even_nonneg _ (loc_of_shr_record mrs') H1)) as H2.
  destruct (shr_fexp _ _ (round_nearest_even _ _) e' loc_Exact) as [mrs'' e''].
  simpl in H2.
  destruct (shr_m mrs'') as [|q|q]; simpl; [reflexivity| |lia].
  destruct (e'' <=? _); reflexivity.
Qed.

Lemma of_int_sign n : has_sign (n <? 0) (Float.of_int n).
Proof.
  unfold Float.of_int, binary_normalize, binary_round.
  destruct n as [|q|q]; [reflexivity| |];
    destruct (shl_align _ _ _) as [mz ez]; now apply binary_round_aux_sign.
Qed.

Lemma div_finite_sign sx mx ex sy my ey :
  has_sign (xorb sx sy)
    (Float.div (S754_finite sx mx ex) (S754_finite sy my ey)).
Proof.
  unfold Float.div, SFdiv, SFdiv_core_binary.
  set (m' := match _ - _ - _ with Z.pos _ => _ | Z0 => _ | Z.neg _ => _ end).
  assert (Hm : 0 <= m').
  { subst m'. destruct (_ - _ - _); [lia| |lia].
    apply Z.shiftl_nonneg. lia. }
  pose proof (Z_div_mod m' (Z.pos my) eq_refl) as Hd.
  destruct (Z.div_eucl m' (Z.pos my)) as [q r].
  apply binary_round_aux_sign. nia.
Qed.

Lemma div_sign s x sy my ey :
  has_sign s x -> has_sign (xorb s sy) (Float.div x (S754_finite sy my ey)).
Proof.
  destruct x as [s'|s'| |s' m e]; simpl; intros H; subst; try easy.
  apply div_finite_sign.
Qed.

Lemma round_sign s x n : has_sign s x -> has_sign s (Float.round x n).
Proof.
  destruct x as [s'|s'| |s' m e]; simpl; intros H; subst; try easy.
  destruct (0 <=? e); [reflexivity|].
  destruct (Float.div_half_even _ _) as [|q|q]; try reflexivity.
  pose proof (of_int_sign (10 ^ Z.of_nat n)) as Hp.
  assert (H10 : (10 ^ Z.of_nat n <? 0) = false) by (apply Z.ltb_ge, Z.pow_nonneg; lia).
  rewrite H10 in Hp.
  destruct (Float.of_int _) as [t|t| |t m' e'] eqn:E; simpl in Hp; subst; try easy.
  - cbn. apply xorb_false_r.
  - cbn. apply xorb_false_r.
  - pose proof (div_finite_sign s q 0 false m' e') as D.
    now rewrite xorb_false_r in D.
Qed.

Lemma has_sign_nonneg x : has_sign false x -> Float.nonneg x = true.
Proof. destruct x; simpl; intros H; subst; easy. Qed.

End FloatSigns.

(** ** The aggregation loop *)

Section Aggregator.

Variable parse : datetime -> string -> result datetime.
Variable now : datetime.

Lemma try_body_shift total duration :
  try_body parse now total duration
  = match try_body parse now 0 duration with
    | Ok d => Ok (total + d)
    | Raise e => Raise e
    end.
Proof.
  unfold try_body, mbind, result_bind.
  destruct (has_separator duration); [|f_equal; lia].
  destruct (split_duration duration) as [[start_str end_str]|x]; [|reflexivity].
  destruct (if String.eqb _ _ then _ else _) as [end_date|x]; [|reflexivity].
  destruct (parse now start_str) as [start_date|x]; [|reflexivity].
  destruct (Datetime.sub end_date start_date) as [delta|x]; reflexivity.
Qed.

Lemma try_body_no_separator total duration :
  has_separator duration = false -> try_body parse now total duration = Ok total.
Proof. unfold try_body. now intros ->. Qed.

Lemma loop_step_span total e :
  loop_step parse now total e
  = total + default 0 (parsed_span parse now (entry_duration e)).
Proof.
  unfold loop_step, parsed_span.
  destruct (has_separator (entry_duration e)) eqn:Hsep.
  - rewrite try_body_shift.
    destruct (try_body parse now 0 _); simpl; lia.
  - rewrite try_body_no_separator by exact Hsep. simpl. lia.
Qed.

Lemma fold_loop_total entries : forall total,
  fold_left (loop_step parse now) entries total
  = total + total_span parse now entries.
Proof.
  induction entries as [|e l IH]; intros total; simpl.
  - lia.
  - rewrite IH, loop_step_span. lia.
Qed.

Lemma total_span_app l1 l2 :
  total_span parse now (l1 ++ l2)
  = total_span parse now l1 + total_span parse now l2.
Proof. induction l1 as [|e l IH]; simpl; [reflexivity|rewrite IH; lia]. Qed.

Lemma total_span_nonneg entries :
  Forall (fun e => 0 <= default 0 (parsed_span parse now (entry_duration e)))
    entries ->
  0 <= total_span parse now entries.
Proof. induction 1; simpl; lia. Qed.

Lemma calculate_experience_total entries :
  calculate_experience parse now entries
  = Float.round
      (Float.div (Float.of_int (total_span parse now entries)) Float.c365_25) 2.
Proof. unfold calculate_experience. now rewrite fold_loop_total. Qed.

Lemma loop_depends_on_duration l1 : forall l2 total,
  map entry_duration l1 = map entry_duration l2 ->
  fold_left (loop_step parse now) l1 total
  = fold_left (loop_step parse now) l2 total.
Proof.
  induction l1 as [|e1 l1 IH]; intros [|e2 l2] total H; simpl in *;
    try discriminate; [reflexivity|].
  injection H as He Hl.
  unfold loop_step at 2 4. rewrite He. now apply IH.
Qed.

End Aggregator.

(** C1, as the program has it: the result is the total of the parsed spans
    in days, divided by 365.25 and rounded to 2 decimals; it is non-negative
    whenever that total is, so whenever no parsed entry ends before it
    starts (such an entry counts negatively, and nothing clamps the sum). *)
Theorem calculate_experience_sign parse now entries :
  calculate_experience parse now entries
  = Float.round
      (Float.div (Float.of_int (total_span parse now entries)) Float.c365_25) 2
  /\ (0 <= total_span parse now entries ->
      Float.nonneg (calculate_experience parse now entries) = true)
  /\ (Forall (fun e => 0 <= default 0 (parsed_span parse now (entry_duration e)))
        entries ->
      Float.nonneg (calculate_experience parse now entries) = true).
Proof.
  assert (Hsign : 0 <= total_span parse now entries ->
                  Float.nonneg (calculate_experience parse now entries) = true).
  { intros H. rewrite calculate_experience_total.
    apply has_sign_nonneg, round_sign.
    pose proof (of_int_sign (total_span parse now entries)) as Hs.
    replace (total_span parse now entries <? 0) with false in Hs
      by (symmetry; apply Z.ltb_ge, H).
    exact (div_sign false _ false _ _ Hs). }
  split; [apply calculate_experience_total|]. split; [exact Hsign|].
  intros H. now apply Hsign, total_span_nonneg.
Qed.

Lemma calculate_experience_sign_witness :
  Float.nonneg
    (calculate_experience parse_month_year clock_2023_01_15
       [job "Engineer" "01/2020 - 01/2021"]) = true.
Proof.
  apply (proj1 (proj2 (calculate_experience_sign parse_month_year
                         clock_2023_01_15
                         [job "Engineer" "01/2020 - 01/2021"]))).
  vm_compute. discriminate.
Defined.

(** C1 as stated fails: a single entry whose end date precedes its start
    date, ["01/2021 - 01/2020"], gives -366 days and the result -1.0. *)
Lemma calculate_experience_negative :
  calculate_experience parse_month_year clock_2023_01_15
    [job "Engineer" "01/2021 - 01/2020"] = float_minus_1_0
  /\ Float.is_negative float_minus_1_0 = true
  /\ Float.nonneg float_minus_1_0 = false.
Proof. vm_compute. auto. Qed.

(** C3: an entry whose duration does not split or parse leaves the running
    total untouched, and the result is that of the list without it. *)
Theorem malformed_entry_skipped parse now pre bad post :
  has_separator (entry_duration bad) = false
  \/ (exists x, try_body parse now 0 (entry_duration bad) = Raise x) ->
  (forall total, loop_step parse now total bad = total)
  /\ calculate_experience parse now (pre ++ bad :: post)
     = calculate_experience parse now (pre ++ post).
Proof.
  intros Hbad.
  assert (H : parsed_span parse now (entry_duration bad) = None).
  { unfold parsed_span. destruct Hbad as [->|[x ->]]; [reflexivity|].
    now destruct (has_separator _). }
  split.
  - intros total. rewrite loop_step_span, H. simpl. lia.
  - rewrite !calculate_experience_total, !total_span_app. simpl.
    rewrite H. simpl. reflexivity.
Qed.

Lemma malformed_entry_skipped_witness :
  calculate_experience parse_month_year clock_2023_01_15
    ([job "Engineer" "01/2020 - 01/2021"] ++ job "Intern" "not a date" :: [])
  = calculate_experience parse_month_year clock_2023_01_15
      ([job "Engineer" "01/2020 - 01/2021"] ++ []).
Proof.
  apply (malformed_entry_skipped parse_month_year clock_2023_01_15).
  left. vm_compute. reflexivity.
Defined.

(** C10: the total depends on the entries only through their duration
    texts. *)
Theorem titles_do_not_interfere parse now l1 l2 :
  map entry_duration l1 = map entry_duration l2 ->
  calculate_experience parse now l1 = calculate_experience parse now l2.
Proof.
  intros H. unfold calculate_experience.
  now rewrite (loop_depends_on_duration parse now l1 l2 0 H).
Qed.

Lemma titles_do_not_interfere_witness :
  calculate_experience parse_month_year clock_2023_01_15
    [job "Engineer" "01/2020 - 01/2021"; FreeText "Analyst (03/2021 - Present)"]
  = calculate_experience parse_month_year clock_2023_01_15
      [Structured {[ "duration" := "01/2020 - 01/2021"; "employer" := "ACME" ]};
       FreeText "Title: Clerk (03/2021 - Present) (part time)"].
Proof.
  apply titles_do_not_interfere. vm_compute. reflexivity.
Defined.

(** ** Worked durations *)

(** Replaces the calendar functions applied to constants by their values. *)
Ltac calendar_consts :=
  repeat match goal with
  | |- context [days_before_year ?y] =>
      let v := eval vm_compute in (days_before_year y) in
      change (days_before_year y) with v
  | |- context [days_before_month ?y ?m] =>
      let v := eval vm_compute in (days_before_month y m) in
      change (days_before_month y m) with v
  | |- context [days_in_month ?y ?m] =>
      let v := eval vm_compute in (days_in_month y m) in
      change (days_in_month y m) with v
  end.

Section Worked.

Variable parse : datetime -> string -> result datetime.
Variable now : datetime.

Lemma job_duration title duration :
  entry_duration (job title duration) = duration.
Proof.
  unfold entry_duration, job.
  rewrite lookup_insert_ne by discriminate.
  now rewrite lookup_singleton_eq.
Qed.

Lemma days_exact d r :
  0 <= r < us_per_day -> days (d * us_per_day + r) = d.
Proof.
  intros H. unfold days. symmetry.
  apply (Z.div_unique_pos _ _ d r); [exact H|unfold us_per_day; lia].
Qed.

Lemma one_job_total title duration d :
  try_body parse now 0 duration = Ok d ->
  has_separator duration = true ->
  total_span parse now [job title duration] = d.
Proof.
  intros H Hsep. cbn [total_span]. rewrite job_duration. unfold parsed_span.
  rewrite Hsep, H. simpl. lia.
Qed.

Lemma leap_year_span :
  parse now "01/2020" = Ok (dateutil_month_year now 2020 1) ->
  parse now "01/2021" = Ok (dateutil_month_year now 2021 1) ->
  try_body parse now 0 "01/2020 - 01/2021" = Ok 366.
Proof.
  intros H0 H1. unfold try_body.
  replace (has_separator _) with true by (vm_compute; reflexivity).
  replace (split_duration _) with (Ok ("01/2020", "01/2021"))
    by (vm_compute; reflexivity).
  cbn [mbind result_bind].
  replace (String.eqb _ _) with false by (vm_compute; reflexivity).
  rewrite H0, H1. cbn [mbind result_bind].
  unfold Datetime.sub, dateutil_month_year, toordinal, same_tzinfo.
  cbn [year month day hour minute second microsecond tz].
  calendar_consts.
  match goal with
  | |- new_delta ?u ≫= _ = _ =>
      replace u with (366 * us_per_day + 0) by (unfold us_per_day; lia)
  end.
  unfold new_delta. rewrite days_exact by (unfold us_per_day; lia).
  reflexivity.
Qed.

Lemma present_span :
  valid now -> year now = 2023 -> month now = 1 ->
  parse now "01/2020" = Ok (dateutil_month_year now 2020 1) ->
  try_body parse now 0 "01/2020 - Present" = Ok 1096.
Proof.
  intros V Hy Hm H0. unfold try_body.
  replace (has_separator _) with true by (vm_compute; reflexivity).
  replace (split_duration _) with (Ok ("01/2020", "Present"))
    by (vm_compute; reflexivity).
  cbn [mbind result_bind].
  replace (String.eqb _ _) with true by (vm_compute; reflexivity).
  rewrite H0. cbn [mbind result_bind].
  destruct V as (_ & _ & Vd & Vh & Vmi & Vs & Vu). rewrite Hy, Hm in Vd.
  unfold Datetime.sub, dateutil_month_year, naive, toordinal, same_tzinfo.
  cbn [year month day hour minute second microsecond tz].
  rewrite Hy, Hm. revert Vd. calendar_consts. intros Vd.
  match goal with
  | |- new_delta ?u ≫= _ = _ =>
      replace u with
        (1096 * us_per_day
         + ((second now + minute now * 60 + hour now * 3600) * 1000000
            + microsecond now))
        by (unfold us_per_day; lia)
  end.
  unfold new_delta. rewrite days_exact by (unfold us_per_day; lia).
  change (Z.abs 1096 <=? 999999999) with true. cbn [mbind result_bind].
  now rewrite days_exact by (unfold us_per_day; lia).
Qed.

End Worked.

(** C6: when the end text is ["present"] in any letter case, the end date
    is the clock reading and the end text is not parsed; with the clock in
    January 2023, ["01/2020 - Present"] gives 1096 days and 3.0 years. *)
Theorem present_means_now parse now :
  (forall total duration start_str end_str,
     has_separator duration = true ->
     split_duration duration = Ok (start_str, end_str) ->
     Str.lower end_str = "present" ->
     try_body parse now total duration
     = (start_date ← parse now start_str;
        delta ← Datetime.sub (naive now) start_date;
        Ok (total + days delta)))
  /\ (valid now -> year now = 2023 -> month now = 1 ->
      parse now "01/2020" = Ok (dateutil_month_year now 2020 1) ->
      parsed_span parse now "01/2020 - Present" = Some 1096
      /\ calculate_experience parse now [job "Engineer" "01/2020 - Present"]
         = float_3_0).
Proof.
  split.
  - intros total duration start_str end_str Hsep Hsplit Hend.
    unfold try_body. rewrite Hsep, Hsplit. cbn [mbind result_bind].
    now rewrite Hend.
  - intros V Hy Hm H0. pose proof (present_span parse now V Hy Hm H0) as H.
    split.
    + unfold parsed_span. now rewrite H.
    + rewrite calculate_experience_total.
      rewrite (one_job_total parse now _ _ 1096 H) by (vm_compute; reflexivity).
      vm_compute. reflexivity.
Qed.

Lemma present_means_now_witness :
  try_body parse_month_year clock_2023_01_15 0 "03/2021 – PRESENT"
  = (start_date ← parse_month_year clock_2023_01_15 "03/2021";
     delta ← Datetime.sub (naive clock_2023_01_15) start_date;
     Ok (0 + days delta))
  /\ calculate_experience parse_month_year clock_2023_01_15
       [job "Engineer" "01/2020 - Present"] = float_3_0.
Proof.
  split.
  - apply (proj1 (present_means_now parse_month_year clock_2023_01_15)
             0 "03/2021 – PRESENT" "03/2021" "PRESENT");
      vm_compute; reflexivity.
  - apply (proj2 (present_means_now parse_month_year clock_2023_01_15));
      try (vm_compute; reflexivity).
    unfold valid, clock_2023_01_15.
    cbn [year month day hour minute second microsecond].
    calendar_consts. lia.
Defined.

(** C7: ["01/2020 - 01/2021"] spans 366 days, whatever the day of the month
    the parser takes from the clock, and the total is 1.0 years. *)
Theorem leap_year_is_one_year parse now :
  parse now "01/2020" = Ok (dateutil_month_year now 2020 1) ->
  parse now "01/2021" = Ok (dateutil_month_year now 2021 1) ->
  parsed_span parse now "01/2020 - 01/2021" = Some 366
  /\ calculate_experience parse now [job "Engineer" "01/2020 - 01/2021"]
     = float_1_0.
Proof.
  intros H0 H1. pose proof (leap_year_span parse now H0 H1) as H. split.
  - unfold parsed_span. now rewrite H.
  - rewrite calculate_experience_total.
    rewrite (one_job_total parse now _ _ 366 H) by (vm_compute; reflexivity).
    vm_compute. reflexivity.
Qed.

Lemma leap_year_is_one_year_witness :
  parsed_span parse_month_year clock_2023_01_15 "01/2020 - 01/2021" = Some 366
  /\ calculate_experience parse_month_year clock_2023_01_15
       [job "Engineer" "01/2020 - 01/2021"] = float_1_0.
Proof.
  apply leap_year_is_one_year; vm_compute; reflexivity.
Defined.

(** ** The formatter *)

Section Formatter.

Lemma formatted_from l : forall acc : list string,
  fold_left (fun (formatted : list string) e => (formatted ++ [format_entry e])%list)
    l acc
  = (acc ++ map format_entry l)%list.
Proof.
  induction l as [|e l IH]; intros acc; simpl.
  - now rewrite app_nil_r.
  - now rewrite IH, <- app_assoc.
Qed.

Lemma formatted_of_map experience :
  formatted_of experience = map format_entry experience.
Proof. unfold formatted_of. now rewrite formatted_from. Qed.

End Formatter.

(** C8: every structured entry is rendered ["<title> (<duration>)"], a
    missing title or duration reading ["N/A"]; the renderings are joined
    with [", "] in the order of the entries. *)
Theorem format_experience_structured :
  (forall experience,
     format_experience experience
     = Str.join ", " (map format_entry experience))
  /\ (forall d : gmap string string,
        format_entry (Structured d)
        = render (default "N/A" (d !! "title")) (default "N/A" (d !! "duration")))
  /\ format_experience [job "Engineer" "01/2020 - Present"]
     = "Engineer (01/2020 - Present)".
Proof.
  split; [|split].
  - intros experience. unfold format_experience.
    now rewrite formatted_of_map.
  - reflexivity.
  - vm_compute. reflexivity.
Qed.

(** ** The pattern of the free-text entries *)

Section TitlePattern.

(** After the marker ["Duration: "] and a text [d] that does not hold the
    marker again, no later point of the line starts with the marker. *)
Lemma duration_not_later d v c w post :
  "Duration: " ++ d = v ++ String c w ->
  Str.contains "Duration: " d = false ->
  Str.startswith "Duration: " (w ++ nl ++ post) = false.
Proof.
  intros H Hd.
  do 9 (destruct v as [|? v];
        [injection H as <- <-; reflexivity|injection H as _ H]).
  assert (Hw : Str.contains "Duration: " w = false).
  { destruct v as [|? v]; injection H as _ H; subst d; [exact Hd|].
    apply (contains_suffix_false _ (v ++ String c "")).
    now rewrite sapp_assoc. }
  apply startswith_before; [reflexivity|].
  now apply contains_false_startswith.
Qed.

Lemma title_re_match p t mid d post :
  all_chars dot t = true ->
  all_chars dot mid = true ->
  all_chars dot d = true ->
  Str.contains "Duration: " d = false ->
  exists e,
    rmatch title_re
      (MState p ("Title: " ++ t ++ nl ++ mid ++ "Duration: " ++ d ++ nl ++ post) [])
      (fun st => Some st)
    = Some (MState e post [t; d]).
Proof.
  intros Ht Hmid Hd Hno. eexists.
  unfold title_re. cbn [cat].
  rewrite rmatch_cat, (rmatch_lit "Title: ").
  rewrite rmatch_cat_assoc, (lazy_group_line t) by exact Ht.
  rewrite rmatch_cat, rmatch_star_greedy.
  apply star_greedy_skip; [exact Hmid|].
  rewrite <- (sapp_assoc "Duration: " d).
  rewrite star_greedy_first.
  - rewrite sapp_assoc, rmatch_cat, (rmatch_lit "Duration: ").
    rewrite (lazy_group_line d) by exact Hd.
    reflexivity.
  - rewrite all_chars_app, Hd. reflexivity.
  - reflexivity.
  - intros v c w H. rewrite rmatch_cat. apply rmatch_lit_fail.
    now apply (duration_not_later d v c w post).
Qed.

Lemma title_re_search pre t mid d post :
  Str.contains "Title: " (pre ++ "Title:") = false ->
  all_chars dot t = true ->
  all_chars dot mid = true ->
  all_chars dot d = true ->
  Str.contains "Duration: " d = false ->
  forall p, exists e,
    search_from title_re p
      (pre ++ "Title: " ++ t ++ nl ++ mid ++ "Duration: " ++ d ++ nl ++ post)
    = Some (ReMatch (p + String.length pre) e post [t; d]).
Proof.
  intros Hpre Ht Hmid Hd Hno.
  induction pre as [|c pre IH]; intros p.
  - destruct (title_re_match p t mid d post Ht Hmid Hd Hno) as [e He].
    exists e. rewrite sapp_nil_l. simpl (String.length _).
    rewrite Nat.add_0_r.
    exact (search_from_hit _ _ _ _ He).
  - destruct (IH (contains_cons_false _ _ _ Hpre) (S p)) as [e He].
    exists e. rewrite sapp_cons. simpl (String.length _).
    rewrite search_from_miss.
    + rewrite He. do 2 f_equal. lia.
    + unfold title_re. cbn [cat]. rewrite rmatch_cat.
      apply rmatch_lit_fail.
      apply contains_false_startswith in Hpre.
      rewrite <- sapp_cons.
      change ("Title: " ++ t ++ nl ++ mid ++ "Duration: " ++ d ++ nl ++ post)
        with ("Title:" ++ " " ++ t ++ nl ++ mid ++ "Duration: " ++ d ++ nl
              ++ post).
      rewrite <- sapp_assoc, startswith_longer; [exact Hpre|].
      rewrite slength_app. simpl. lia.
Qed.

Lemma title_re_nowhere s : Str.contains "Title: " s = false -> forall p,
  search_from title_re p s = None.
Proof.
  induction s as [|c s IH]; intros Hs p.
  - reflexivity.
  - rewrite search_from_miss.
    + apply IH. exact (contains_cons_false _ _ _ Hs).
    + unfold title_re. cbn [cat]. rewrite rmatch_cat.
      now apply rmatch_lit_fail, contains_false_startswith.
Qed.

End TitlePattern.

(** C9: a free-text entry is rendered from the two groups of the pattern,
    stripped, when the pattern matches, and kept as it is otherwise; the
    list built by the loop has one item per entry.  The pattern matches a
    text whose first ["Title: "] is followed by the title up to the end of
    the line, and whose next line holds ["Duration: "] followed by the
    duration up to the end of that line; it matches no text without
    ["Title: "]. *)
Theorem format_freetext :
  (forall s,
     format_entry (FreeText s)
     = match search title_re s with
       | Some m => render (Str.strip (group m 0)) (Str.strip (group m 1))
       | None => s
       end)
  /\ (forall pre t mid d post,
        Str.contains "Title: " (pre ++ "Title:") = false ->
        all_chars dot t = true ->
        all_chars dot mid = true ->
        all_chars dot d = true ->
        Str.contains "Duration: " d = false ->
        format_entry
          (FreeText (pre ++ "Title: " ++ t ++ nl ++ mid ++ "Duration: " ++ d
                     ++ nl ++ post))
        = render (Str.strip t) (Str.strip d))
  /\ (forall s, Str.contains "Title: " s = false ->
        format_entry (FreeText s) = s)
  /\ (forall experience,
        length (formatted_of experience) = length experience
        /\ forall i e, experience !! i = Some e ->
             formatted_of experience !! i = Some (format_entry e)).
Proof.
  split; [reflexivity|]. split; [|split].
  - intros pre t mid d post Hpre Ht Hmid Hd Hno.
    destruct (title_re_search pre t mid d post Hpre Ht Hmid Hd Hno 0%nat)
      as [e He].
    unfold format_entry, search. rewrite He. reflexivity.
  - intros s Hs. unfold format_entry, search.
    now rewrite title_re_nowhere.
  - intros experience. rewrite formatted_of_map. split.
    + apply length_map.
    + intros i e Hi. now rewrite list_lookup_fmap, Hi.
Qed.

Lemma format_freetext_witness :
  format_entry
    (FreeText ("Role. " ++ "Title: " ++ " Engineer " ++ nl ++ "Acme; "
               ++ "Duration: " ++ "01/2020 - Present " ++ nl ++ "Remote"))
  = render (Str.strip " Engineer ") (Str.strip "01/2020 - Present ")
  /\ format_entry (FreeText "Engineer at Acme since 2020")
     = "Engineer at Acme since 2020"
  /\ formatted_of [FreeText "a"; job "b" "c"] !! 1%nat
     = Some (format_entry (job "b" "c")).
Proof.
  destruct format_freetext as (_ & Hmatch & Hmiss & Hall).
  split; [|split].
  - apply Hmatch; vm_compute; reflexivity.
  - apply Hmiss. vm_compute. reflexivity.
  - apply (proj2 (Hall [FreeText "a"; job "b" "c"])). reflexivity.
Defined.

(** ** The cleaning statements *)

Section Cleaning.

Lemma head_re_late s : forall p, search_from head_re (S p) s = None.
Proof. induction s as [|c s IH]; intros p; simpl; [reflexivity|apply IH]. Qed.

(** First statement, when there is a [{]: everything before the first one
    goes. *)
Lemma sub1_head_hit pre rest :
  Str.contains "{" pre = false ->
  sub1 head_re "{" (pre ++ "{" ++ rest) = "{" ++ rest.
Proof.
  intros Hpre. unfold sub1, search.
  assert (H : rmatch head_re (MState 0 (pre ++ "{" ++ rest) [])
                (fun st => Some st)
              = Some (MState (String.length pre + 1) rest [])).
  { unfold head_re. simpl.
    apply star_greedy_skip; [now apply no_char_all_isnt|].
    simpl. reflexivity. }
  rewrite (search_from_hit _ _ _ _ H). simpl.
  now rewrite substring_0_0.
Qed.

(** First statement, when there is no [{]: nothing changes. *)
Lemma sub1_head_miss raw :
  Str.contains "{" raw = false -> sub1 head_re "{" raw = raw.
Proof.
  intros Hraw. unfold sub1, search.
  assert (H : rmatch head_re (MState 0 raw []) (fun st => Some st) = None).
  { unfold head_re. simpl. apply star_greedy_none.
    intros v w q ->.
    change (rmatch (Lit "{") (MState q w []) (fun st => Some st) = None).
    apply rmatch_lit_fail, contains_false_startswith.
    rewrite contains_char_app in Hraw. now apply orb_false_elim in Hraw. }
  destruct raw as [|c raw].
  - now rewrite search_from_end.
  - now rewrite search_from_miss, head_re_late.
Qed.

Lemma dollar_needs_end y p :
  Str.contains "}" y = true ->
  star_greedy (isnt "}") p y
    (fun q t => rmatch Dollar (MState q t []) (fun st => Some st)) = None.
Proof.
  set (k := fun q t => rmatch Dollar (MState q t []) (fun st => Some st)).
  revert p. induction y as [|c y IH]; intros p Hy; [discriminate|].
  rewrite contains_char_cons in Hy.
  assert (Hk : k p (String c y) = None).
  { unfold k. simpl. destruct y as [|d y]; [|now destruct (Ascii.eqb c _)].
    change (Str.contains "}" "") with false in Hy.
    rewrite orb_false_r in Hy.
    apply Ascii.eqb_eq in Hy as <-. reflexivity. }
  simpl star_greedy. rewrite Hk.
  unfold isnt at 1. destruct (Ascii.eqb_spec c "}") as [->|Hc]; simpl.
  - reflexivity.
  - rewrite IH; [reflexivity|].
    destruct (Ascii.eqb_spec "}" c) as [<-|]; [contradiction|exact Hy].
Qed.

Lemma tail_search post : Str.contains "}" post = false -> forall x p,
  search_from tail_re p (x ++ "}" ++ post)
  = Some (ReMatch (p + String.length x)
            (p + String.length x + 1 + String.length post) "" []).
Proof.
  intros Hpost. induction x as [|c x IH]; intros p.
  - cbn [String.append String.length]. rewrite Nat.add_0_r.
    apply (search_from_hit tail_re p (String "}" post)
             (MState (p + 1 + String.length post) "" [])).
    unfold tail_re. simpl.
    apply star_greedy_all; [now apply no_char_all_isnt|].
    reflexivity.
  - simpl append. rewrite search_from_miss.
    + rewrite IH. simpl. do 2 f_equal; lia.
    + unfold tail_re. simpl.
      destruct (Ascii.eqb_spec "}" c) as [<-|Hc]; [|reflexivity].
      apply dollar_needs_end.
      rewrite contains_char_app, contains_char_cons. simpl.
      apply orb_true_r.
Qed.

(** Second statement, when there is a [}]: everything after the last one
    goes. *)
Lemma sub1_tail_hit x post :
  Str.contains "}" post = false ->
  sub1 tail_re "}" (x ++ "}" ++ post) = x ++ "}".
Proof.
  intros Hpost. unfold sub1, search.
  rewrite (tail_search post Hpost x 0). simpl.
  now rewrite substring_app.
Qed.

Lemma tail_re_nowhere raw : Str.contains "}" raw = false -> forall p,
  search_from tail_re p raw = None.
Proof.
  induction raw as [|c raw IH]; intros Hraw p; [reflexivity|].
  rewrite contains_char_cons in Hraw. apply orb_false_elim in Hraw as [Hc Hr].
  rewrite search_from_miss; [now apply IH|].
  unfold tail_re. simpl. now rewrite Hc.
Qed.

(** Second statement, when there is no [}]: nothing changes. *)
Lemma sub1_tail_miss raw :
  Str.contains "}" raw = false -> sub1 tail_re "}" raw = raw.
Proof.
  intros Hraw. unfold sub1, search. now rewrite tail_re_nowhere.
Qed.

Lemma clean_braced pre body post :
  Str.contains "{" pre = false ->
  Str.contains "}" post = false ->
  clean (pre ++ "{" ++ body ++ "}" ++ post) = unfence ("{" ++ body ++ "}").
Proof.
  intros Hpre Hpost. unfold clean, unfence.
  rewrite (sub1_head_hit pre _ Hpre).
  rewrite <- (sapp_assoc "{" body ("}" ++ post)).
  rewrite (sub1_tail_hit _ post Hpost).
  now rewrite sapp_assoc.
Qed.

Lemma clean_no_brace raw :
  Str.contains "{" raw = false ->
  Str.contains "}" raw = false ->
  clean raw = unfence raw.
Proof.
  intros H1 H2. unfold clean, unfence.
  now rewrite (sub1_head_miss raw H1), (sub1_tail_miss raw H2).
Qed.

Lemma drop_until_Some c s : forall t,
  drop_until c s = Some t ->
  exists pre rest,
    s = pre ++ String c rest /\ t = String c rest
    /\ Str.contains (String c "") pre = false.
Proof.
  induction s as [|a s IH]; intros t H; [discriminate|].
  simpl in H. destruct (Ascii.eqb_spec a c) as [->|Hac].
  - injection H as <-. now exists "", s.
  - destruct (IH t H) as (pre & rest & -> & -> & Hpre).
    exists (String a pre), rest. repeat split.
    rewrite contains_char_cons, Hpre, orb_false_r.
    apply Ascii.eqb_neq. congruence.
Qed.

Lemma drop_until_None c s :
  drop_until c s = None -> Str.contains (String c "") s = false.
Proof.
  induction s as [|a s IH]; intros H; [reflexivity|].
  simpl in H. rewrite contains_char_cons, Ascii.eqb_sym.
  destruct (Ascii.eqb a c); [discriminate|]. now apply IH.
Qed.

Lemma keep_until_last_None c s :
  keep_until_last c s = None -> Str.contains (String c "") s = false.
Proof.
  induction s as [|a s IH]; intros H; [reflexivity|].
  simpl in H. rewrite contains_char_cons, Ascii.eqb_sym.
  destruct (keep_until_last c s); [discriminate|].
  destruct (Ascii.eqb a c); [discriminate|]. now apply IH.
Qed.

Lemma keep_until_last_Some c s : forall t,
  keep_until_last c s = Some t ->
  exists x post,
    s = x ++ String c post /\ t = x ++ String c ""
    /\ Str.contains (String c "") post = false.
Proof.
  induction s as [|a s IH]; intros t H; [discriminate|].
  simpl in H. destruct (keep_until_last c s) as [t'|] eqn:E.
  - injection H as <-.
    destruct (IH t' eq_refl) as (x & post & -> & -> & Hpost).
    now exists (String a x), post.
  - destruct (Ascii.eqb_spec a c) as [->|]; [|discriminate].
    injection H as <-. exists "", s. repeat split.
    now apply keep_until_last_None.
Qed.

(** The first statement keeps the text from its first [{] on. *)
Lemma sub1_head_cut raw : sub1 head_re "{" raw = from_first "{" raw.
Proof.
  unfold from_first. destruct (drop_until "{" raw) as [t|] eqn:E; simpl.
  - destruct (drop_until_Some _ _ _ E) as (pre & rest & -> & -> & Hpre).
    exact (sub1_head_hit pre rest Hpre).
  - apply sub1_head_miss. now apply drop_until_None.
Qed.

(** The second statement keeps the text up to its last [}]. *)
Lemma sub1_tail_cut raw : sub1 tail_re "}" raw = upto_last "}" raw.
Proof.
  unfold upto_last. destruct (keep_until_last "}" raw) as [t|] eqn:E; simpl.
  - destruct (keep_until_last_Some _ _ _ E) as (x & post & -> & -> & Hpost).
    exact (sub1_tail_hit x post Hpost).
  - apply sub1_tail_miss. now apply keep_until_last_None.
Qed.

Lemma clean_cut raw :
  clean raw = unfence (upto_last "}" (from_first "{" raw)).
Proof. unfold clean, unfence. now rewrite sub1_head_cut, sub1_tail_cut. Qed.

End Cleaning.

(** C4, as the program has it: a payload that opens with [{] and closes
    with [}], fenced and surrounded by prose, is sanitized to the same
    object as the payload alone, provided neither the prose before it nor
    the tag of the fence has a [{] and the prose after it has no [}]. *)
Theorem sanitizer_round_trip loads prose1 tag body prose2 :
  Str.contains "{" prose1 = false ->
  Str.contains "{" tag = false ->
  Str.contains "}" prose2 = false ->
  sanitize loads (wrapped prose1 tag ("{" ++ body ++ "}") prose2)
  = sanitize loads ("{" ++ body ++ "}").
Proof.
  intros H1 Ht H2. unfold sanitize.
  enough (E : clean (wrapped prose1 tag ("{" ++ body ++ "}") prose2)
              = clean ("{" ++ body ++ "}")) by now rewrite E.
  transitivity (unfence ("{" ++ body ++ "}")).
  - unfold wrapped.
    replace (prose1 ++ fence ++ tag ++ nl ++ ("{" ++ body ++ "}")
             ++ nl ++ fence ++ prose2)
      with ((prose1 ++ fence ++ tag ++ nl) ++ "{" ++ body ++ "}"
            ++ (nl ++ fence ++ prose2))
      by (now rewrite !sapp_assoc).
    apply clean_braced.
    + rewrite !contains_char_app, H1, Ht. reflexivity.
    + change (nl ++ fence ++ prose2) with ((nl ++ fence) ++ prose2).
      rewrite contains_char_app, H2. reflexivity.
  - symmetry. rewrite <- (sapp_nil_r ("{" ++ body ++ "}")).
    rewrite !sapp_assoc.
    apply (clean_braced "" body ""); reflexivity.
Qed.

Lemma sanitizer_round_trip_witness :
  sanitize json_loads_sample
    (wrapped "Here is the record: " "json" ("{" ++ (quoted "a" ++ ":1") ++ "}")
       " Done.")
  = sanitize json_loads_sample ("{" ++ (quoted "a" ++ ":1") ++ "}").
Proof.
  apply sanitizer_round_trip; vm_compute; reflexivity.
Defined.

(** C4 as stated fails when the prose holds a brace: with [{"b":] before
    the fenced payload [{"a":1}] and [}] after it, the cleaned text is the
    JSON document of an object with the key ["b"], not the payload. *)
Lemma sanitizer_round_trip_fails :
  sanitize json_loads_sample
    (wrapped ("{" ++ quoted "b" ++ ":") "json" doc_a "}")
  = JDict [("b", JDict [("a", JInt 1)])]
  /\ sanitize json_loads_sample doc_a = JDict [("a", JInt 1)]
  /\ sanitize json_loads_sample
       (wrapped ("{" ++ quoted "b" ++ ":") "json" doc_a "}")
     <> sanitize json_loads_sample doc_a.
Proof. vm_compute. repeat split; discriminate. Qed.

(** C5, as the program has it: the sanitizer hands to the repairer the
    response cut before its first [{] and after its last [}], stripped and
    without its fence markers, and returns what the repairer returns, [None]
    when the repairer raises; on a text without braces nothing is cut.  No
    exception leaves it; whether the caller sees a failure is decided by the
    repairer's result, not by the absence of braces. *)
Theorem no_braces_defers_to_repairer loads raw :
  sanitize loads raw
  = outcome (loads (unfence (upto_last "}" (from_first "{" raw))))
  /\ (Str.contains "{" raw = false ->
      Str.contains "}" raw = false ->
      sanitize loads raw = outcome (loads (unfence raw)))
  /\ (is_failure (sanitize loads raw) = true
      <-> (exists x, loads (clean raw) = Raise x)
          \/ (exists v, loads (clean raw) = Ok v /\ truthy v = false)).
Proof.
  unfold sanitize, is_failure, outcome. split; [|split].
  - now rewrite clean_cut.
  - intros H1 H2. now rewrite (clean_no_brace raw H1 H2).
  - destruct (loads (clean raw)) as [v|x]; simpl.
    + rewrite negb_true_iff. split.
      * intros Hv. right. now exists v.
      * intros [[x Hx]|[w [Hw Ht]]]; [discriminate|congruence].
    + split; [intros _; left; now exists x|reflexivity].
Qed.

Lemma no_braces_defers_to_repairer_witness :
  sanitize json_loads_sample "no record here"
  = outcome (json_loads_sample (unfence "no record here")).
Proof.
  refine (proj1 (proj2 (no_braces_defers_to_repairer json_loads_sample
                          "no record here")) _ _); vm_compute; reflexivity.
Defined.

(** C5 as stated fails: the response [[1]] has no brace and is a JSON
    document; the sanitizer returns the list it denotes, which [if not data]
    does not take for a failure. *)
Lemma no_braces_not_always_failure :
  Str.contains "{" "[1]" = false
  /\ Str.contains "}" "[1]" = false
  /\ sanitize json_loads_sample "[1]" = JList [JInt 1]
  /\ is_failure (sanitize json_loads_sample "[1]") = false.
Proof. vm_compute. auto. Qed.

(** * Further properties of the program *)

(** ** [reset_session] *)

Section Session.

Context {V : Type}.
Implicit Types st : gmap string V.

Lemma reset_session_deletes st :
  reset_session st
  = delete "file_uploader" (delete "parsed_data" (delete "uploaded_files" st)).
Proof.
  assert (Hstep : forall (m : gmap string V) key,
            match m !! key with Some _ => delete key m | None => m end
            = delete key m).
  { intros m key. destruct (m !! key) eqn:E; [reflexivity|].
    symmetry. now apply delete_id. }
  unfold reset_session, keys_to_reset. simpl. now rewrite !Hstep.
Qed.

Lemma reset_session_lookup_aux st key :
  (key ∈ keys_to_reset -> reset_session st !! key = None)
  /\ (key ∉ keys_to_reset -> reset_session st !! key = st !! key).
Proof.
  rewrite reset_session_deletes. unfold keys_to_reset. split.
  - intros H. repeat (apply elem_of_cons in H as [->|H]);
      [| |  |now apply elem_of_nil in H].
    + rewrite !lookup_delete_ne by discriminate. apply lookup_delete_eq.
    + rewrite lookup_delete_ne by discriminate. apply lookup_delete_eq.
    + apply lookup_delete_eq.
  - intros H. rewrite !lookup_delete_ne; [reflexivity|..];
      intros <-; apply H; repeat constructor.
Qed.

End Session.

(** X1: after [reset_session] none of the three keys is in the session
    state, and every other key has the value it had. *)
Theorem reset_session_lookup {V : Type} (st : gmap string V) key :
  (key ∈ keys_to_reset -> reset_session st !! key = None)
  /\ (key ∉ keys_to_reset -> reset_session st !! key = st !! key).
Proof. apply reset_session_lookup_aux. Qed.

Lemma reset_session_lookup_witness :
  reset_session (<["parsed_data" := 1%nat]> (<["theme" := 2%nat]> ∅))
    !! "parsed_data" = None
  /\ reset_session (<["parsed_data" := 1%nat]> (<["theme" := 2%nat]> ∅))
       !! "theme" = Some 2%nat.
Proof.
  split.
  - apply (proj1 (reset_session_lookup _ "parsed_data")).
    unfold keys_to_reset. repeat constructor.
  - rewrite (proj2 (reset_session_lookup _ "theme")); [reflexivity|].
    unfold keys_to_reset. intros H.
    repeat (apply elem_of_cons in H as [H|H]; [discriminate|]).
    now apply elem_of_nil in H.
Defined.

(** X2: [reset_session] twice is [reset_session] once, and a session state
    that holds none of the three keys is left as it is. *)
Theorem reset_session_idempotent {V : Type} (st : gmap string V) :
  reset_session (reset_session st) = reset_session st
  /\ ((forall key, key ∈ keys_to_reset -> st !! key = None) ->
      reset_session st = st).
Proof.
  split.
  - apply map_eq. intros k.
    destruct (decide (k ∈ keys_to_reset)) as [Hk|Hk].
    + now rewrite !(proj1 (reset_session_lookup_aux _ k) Hk).
    + now rewrite (proj2 (reset_session_lookup_aux (reset_session st) k) Hk).
  - intros H. apply map_eq. intros k.
    destruct (decide (k ∈ keys_to_reset)) as [Hk|Hk].
    + rewrite (proj1 (reset_session_lookup_aux st k) Hk). symmetry. now apply H.
    + apply (proj2 (reset_session_lookup_aux st k) Hk).
Qed.

Lemma reset_session_idempotent_witness :
  reset_session (<["theme" := 2%nat]> (∅ : gmap string nat))
  = <["theme" := 2%nat]> ∅.
Proof.
  apply (proj2 (reset_session_idempotent _)).
  intros key H. apply lookup_insert_None. split; [apply lookup_empty|].
  unfold keys_to_reset in H.
  repeat (apply elem_of_cons in H as [->|H]; [discriminate|]).
  now apply elem_of_nil in H.
Defined.

(** ** [extract_text_from_file] *)

Section ExtractionFacts.

Variable pdf_reader : upload -> result (list (result string)).
Variable docx_document : upload -> result (list string).

Lemma read_pages_ok pages : forall text texts,
  page_texts pages = Some texts ->
  read_pages text pages = Ok (text ++ concat_texts texts).
Proof.
  induction pages as [|[t|x] pages IH]; intros text texts H; simpl in *.
  - injection H as <-. simpl. now rewrite sapp_nil_r.
  - destruct (page_texts pages) as [ts|]; [|discriminate].
    injection H as <-. rewrite (IH (text ++ t) ts eq_refl).
    simpl. now rewrite sapp_assoc.
  - discriminate.
Qed.

Lemma read_pages_fail pages : forall text,
  page_texts pages = None -> exists x, read_pages text pages = Raise x.
Proof.
  induction pages as [|[t|x] pages IH]; intros text H; simpl in *.
  - discriminate.
  - destruct (page_texts pages) as [ts|]; [discriminate|].
    now apply IH.
  - now exists x.
Qed.

Lemma read_paragraphs_unlines paragraphs : forall text,
  read_paragraphs text paragraphs = text ++ unlines paragraphs.
Proof.
  unfold read_paragraphs.
  induction paragraphs as [|para l IH]; intros text; simpl.
  - now rewrite sapp_nil_r.
  - rewrite IH. now rewrite !sapp_assoc.
Qed.

Lemma extract_pdf file pages :
  file_type file = pdf_type ->
  pdf_reader file = Ok pages ->
  extract_text_from_file pdf_reader docx_document file
  = option_map concat_texts (page_texts pages).
Proof.
  intros Ht Hr. unfold extract_text_from_file.
  rewrite Ht, String.eqb_refl, Hr. cbn [mbind result_bind].
  destruct (page_texts pages) as [texts|] eqn:E; simpl.
  - now rewrite (read_pages_ok pages "" texts E).
  - destruct (read_pages_fail pages "" E) as [x ->]. reflexivity.
Qed.

Lemma extract_docx file paragraphs :
  file_type file = docx_type ->
  docx_document file = Ok paragraphs ->
  extract_text_from_file pdf_reader docx_document file
  = Some (unlines paragraphs).
Proof.
  intros Ht Hr. unfold extract_text_from_file.
  rewrite Ht. change (String.eqb docx_type pdf_type) with false.
  rewrite String.eqb_refl, Hr. cbn [mbind result_bind].
  now rewrite read_paragraphs_unlines.
Qed.

Lemma extract_other file :
  file_type file <> pdf_type ->
  file_type file <> docx_type ->
  extract_text_from_file pdf_reader docx_document file = Some "".
Proof.
  intros H1 H2. unfold extract_text_from_file.
  apply String.eqb_neq in H1, H2. now rewrite H1, H2.
Qed.

Lemma extract_reader_raises file x :
  (file_type file = pdf_type /\ pdf_reader file = Raise x)
  \/ (file_type file = docx_type /\ docx_document file = Raise x) ->
  extract_text_from_file pdf_reader docx_document file = None.
Proof.
  unfold extract_text_from_file. intros [[Ht Hr]|[Ht Hr]]; rewrite Ht.
  - now rewrite String.eqb_refl, Hr.
  - change (String.eqb docx_type pdf_type) with false.
    now rewrite String.eqb_refl, Hr.
Qed.

End ExtractionFacts.

(** X3: the text of a PDF is the texts of its pages one after the other, in
    page order, when every page gives its text; when the reader or one page
    raises, the function returns [None]: no part of the text is kept. *)
Theorem extract_pdf_all_or_nothing pdf_reader docx_document file :
  file_type file = pdf_type ->
  (forall pages, pdf_reader file = Ok pages ->
     extract_text_from_file pdf_reader docx_document file
     = option_map concat_texts (page_texts pages))
  /\ (forall x, pdf_reader file = Raise x ->
        extract_text_from_file pdf_reader docx_document file = None).
Proof.
  intros Ht. split.
  - intros pages Hr. now apply extract_pdf.
  - intros x Hr. apply (extract_reader_raises _ _ file x). now left.
Qed.

Lemma extract_pdf_all_or_nothing_witness :
  extract_text_from_file
    (fun _ => Ok [Ok "page one. "; Raise (OtherError "damaged"); Ok "page three"])
    (fun _ => Ok []) (Upload "cv.pdf" pdf_type "")
  = option_map concat_texts
      (page_texts [Ok "page one. "; Raise (OtherError "damaged"); Ok "page three"]).
Proof.
  refine (proj1 (extract_pdf_all_or_nothing _ _ (Upload "cv.pdf" pdf_type "")
                   _) _ _); reflexivity.
Defined.

(** X4: the text of a DOCX file is its paragraphs, each followed by a line
    feed; it is empty only when the document has no paragraph, so a document
    of blank paragraphs still goes on to the model. *)
Theorem extract_docx_lines pdf_reader docx_document file paragraphs :
  file_type file = docx_type ->
  docx_document file = Ok paragraphs ->
  extract_text_from_file pdf_reader docx_document file
  = Some (unlines paragraphs)
  /\ (unlines paragraphs = "" <-> paragraphs = []).
Proof.
  intros Ht Hr. split; [now apply extract_docx|]. split.
  - destruct paragraphs as [|para l]; [reflexivity|]. simpl.
    destruct para; discriminate.
  - now intros ->.
Qed.

Lemma extract_docx_lines_witness :
  extract_text_from_file (fun _ => Ok []) (fun _ => Ok [""; ""])
    (Upload "cv.docx" docx_type "")
  = Some (unlines [""; ""])
  /\ (unlines [""; ""] = "" <-> [""; ""] = ([] : list string)).
Proof.
  apply extract_docx_lines; reflexivity.
Defined.

(** ** More on the aggregation *)

Section AggregatorMore.

Variable parse : datetime -> string -> result datetime.
Variable now : datetime.

Lemma total_span_perm l1 l2 :
  Permutation l1 l2 -> total_span parse now l1 = total_span parse now l2.
Proof. induction 1; simpl; lia. Qed.

Lemma total_span_none entries :
  Forall (fun e => parsed_span parse now (entry_duration e) = None) entries ->
  total_span parse now entries = 0.
Proof. induction 1 as [|e l He _ IH]; simpl; [reflexivity|now rewrite He, IH]. Qed.

Lemma new_delta_bound us t :
  new_delta us = Ok t -> Z.abs (days t) <= max_delta_days.
Proof.
  unfold new_delta, max_delta_days.
  destruct (Z.abs (days us) <=? 999999999) eqn:E; [|discriminate].
  intros H. injection H as <-. now apply Z.leb_le.
Qed.

Lemma sub_bound a b t :
  Datetime.sub a b = Ok t -> Z.abs (days t) <= max_delta_days.
Proof.
  unfold Datetime.sub. set (base := _ + (microsecond a - microsecond b)).
  destruct (same_tzinfo a b); [apply new_delta_bound|].
  destruct (utcoffset a) as [oa|], (utcoffset b) as [ob|];
    try discriminate; [|apply new_delta_bound].
  cbn [mbind result_bind].
  destruct (new_delta base) as [r|x] eqn:E; [|discriminate].
  destruct (oa =? ob).
  - intros H. injection H as <-. exact (new_delta_bound _ _ E).
  - apply new_delta_bound.
Qed.

Lemma parsed_span_bound duration d :
  parsed_span parse now duration = Some d -> Z.abs d <= max_delta_days.
Proof.
  unfold parsed_span, try_body.
  destruct (has_separator duration); [|discriminate].
  destruct (split_duration duration) as [[start_str end_str]|];
    cbn [mbind result_bind]; [|discriminate].
  destruct (if String.eqb (Str.lower end_str) "present"
            then Ok (naive now) else parse now end_str) as [end_date|];
    cbn [mbind result_bind]; [|discriminate].
  destruct (parse now start_str) as [start_date|];
    cbn [mbind result_bind]; [|discriminate].
  destruct (Datetime.sub end_date start_date) as [delta|] eqn:E;
    cbn [mbind result_bind]; [|discriminate].
  intros H. injection H as <-. rewrite Z.add_0_l. exact (sub_bound _ _ _ E).
Qed.

Lemma total_span_bound entries :
  Z.abs (total_span parse now entries)
  <= max_delta_days * Z.of_nat (length entries).
Proof.
  induction entries as [|e l IH]; [simpl; lia|].
  cbn [total_span length].
  assert (He : Z.abs (default 0 (parsed_span parse now (entry_duration e)))
               <= max_delta_days).
  { destruct (parsed_span parse now (entry_duration e)) as [d|] eqn:E; simpl.
    - exact (parsed_span_bound _ _ E).
    - unfold max_delta_days. lia. }
  unfold max_delta_days in *. lia.
Qed.

Lemma paren_re_nowhere s : Str.contains "(" s = false -> forall p,
  search_from paren_re p s = None.
Proof.
  induction s as [|c s IH]; intros Hs p; [reflexivity|].
  rewrite search_from_miss.
  - apply IH. exact (contains_cons_false _ _ _ Hs).
  - unfold paren_re. cbn [cat]. rewrite rmatch_cat.
    now apply rmatch_lit_fail, contains_false_startswith.
Qed.

(** The pattern reads the first parenthesised text of a line. *)
Lemma paren_re_search pre u post :
  Str.contains "(" pre = false ->
  all_chars dot u = true ->
  Str.contains ")" u = false ->
  forall p, exists e,
    search_from paren_re p (pre ++ "(" ++ u ++ ")" ++ post)
    = Some (ReMatch (p + String.length pre) e post [u]).
Proof.
  intros Hpre Hu Hno. induction pre as [|c pre IH]; intros p.
  - exists (p + String.length "(" + String.length u + String.length ")")%nat.
    rewrite sapp_nil_l. rewrite Nat.add_0_r.
    apply (search_from_hit paren_re p _
             (MState (p + String.length "(" + String.length u
                      + String.length ")") post [u])).
    unfold paren_re. cbn [cat].
    rewrite rmatch_cat, (rmatch_lit "("), rmatch_cat, rmatch_group_lazy.
    rewrite star_lazy_skip; [|exact Hu|].
    + apply star_lazy_now. rewrite (rmatch_lit ")").
      now rewrite Nat.add_sub', substring_app.
    + intros v c w ->. apply rmatch_lit_fail.
      rewrite contains_char_app, contains_char_cons in Hno.
      apply orb_false_elim in Hno as [_ Hno].
      apply orb_false_elim in Hno as [Hc _].
      rewrite sapp_cons, startswith_char. exact Hc.
  - destruct (IH (contains_cons_false _ _ _ Hpre) (S p)) as [e He].
    exists e. rewrite sapp_cons. simpl (String.length _).
    rewrite search_from_miss.
    + rewrite He. do 2 f_equal. lia.
    + unfold paren_re. cbn [cat]. rewrite rmatch_cat.
      apply rmatch_lit_fail. rewrite startswith_char.
      rewrite contains_char_cons in Hpre.
      now apply orb_false_elim in Hpre as [Hc _].
Qed.

Lemma reformatted_duration e :
  reformattable e ->
  entry_duration (FreeText (format_entry e)) = entry_duration e.
Proof.
  destruct e as [d|s]; [|contradiction].
  intros (Htitle & duration & Hd & Hdot & Hno).
  unfold format_entry, entry_duration. rewrite Hd. simpl default at 2 3.
  set (title := default "N/A" (d !! "title")) in *.
  replace (title ++ " (" ++ duration ++ ")")
    with ((title ++ " ") ++ "(" ++ duration ++ ")" ++ "")
    by now rewrite sapp_assoc.
  destruct (paren_re_search (title ++ " ") duration "") with (p := 0%nat)
    as [e He]; try assumption.
  { rewrite contains_char_app, Htitle. reflexivity. }
  unfold search. rewrite He. reflexivity.
Qed.

End AggregatorMore.

(** X5: the total does not depend on the order of the entries. *)
Theorem calculate_experience_order_free parse now l1 l2 :
  Permutation l1 l2 ->
  calculate_experience parse now l1 = calculate_experience parse now l2.
Proof.
  intros H. rewrite !calculate_experience_total.
  now rewrite (total_span_perm parse now l1 l2 H).
Qed.

Lemma calculate_experience_order_free_witness :
  calculate_experience parse_month_year clock_2023_01_15
    [job "Engineer" "01/2020 - 01/2021"; job "Analyst" "03/2021 - Present"]
  = calculate_experience parse_month_year clock_2023_01_15
      [job "Analyst" "03/2021 - Present"; job "Engineer" "01/2020 - 01/2021"].
Proof.
  apply calculate_experience_order_free. apply perm_swap.
Defined.

(** X6: when no entry parses, and so for the empty list, the result is
    [+0.0]. *)
Theorem nothing_parsed_gives_zero parse now entries :
  Forall (fun e => parsed_span parse now (entry_duration e) = None) entries ->
  calculate_experience parse now entries = S754_zero false.
Proof.
  intros H. rewrite calculate_experience_total.
  now rewrite (total_span_none parse now entries H).
Qed.

Lemma nothing_parsed_gives_zero_witness :
  calculate_experience parse_month_year clock_2023_01_15
    [job "Intern" "not a date"; job "Clerk" "2020-01 - 2021-01";
     FreeText "no dates"]
  = S754_zero false.
Proof.
  apply nothing_parsed_gives_zero.
  repeat constructor.
Defined.

(** X7: a parsed span is at most 999999999 days in absolute value, the
    limit of [timedelta], so the total of [n] entries is at most
    [n * 999999999] days in absolute value. *)
Theorem spans_bounded parse now entries :
  (forall duration d,
     parsed_span parse now duration = Some d -> Z.abs d <= max_delta_days)
  /\ Z.abs (total_span parse now entries)
     <= max_delta_days * Z.of_nat (length entries).
Proof.
  split; [apply parsed_span_bound|apply total_span_bound].
Qed.

Lemma spans_bounded_witness :
  Z.abs 366 <= max_delta_days.
Proof.
  apply (proj1 (spans_bounded parse_month_year clock_2023_01_15 [])
           "01/2020 - 01/2021").
  vm_compute. reflexivity.
Defined.

(** X8: a text entry without [(] adds nothing to the total, whatever dates
    it holds. *)
Theorem freetext_without_parenthesis_ignored parse now s total :
  Str.contains "(" s = false ->
  entry_duration (FreeText s) = ""
  /\ loop_step parse now total (FreeText s) = total.
Proof.
  intros H.
  assert (E : entry_duration (FreeText s) = "").
  { unfold entry_duration, search. now rewrite paren_re_nowhere. }
  split; [exact E|].
  rewrite loop_step_span, E. simpl. lia.
Qed.

Lemma freetext_without_parenthesis_ignored_witness :
  loop_step parse_month_year clock_2023_01_15 7
    (FreeText "Title: Engineer, Duration: 01/2020 - 01/2021") = 7.
Proof.
  apply freetext_without_parenthesis_ignored. vm_compute. reflexivity.
Defined.

(** X9: the aggregator reads back what the formatter writes: for structured
    entries whose title has no [(] and whose duration is one line without
    [)], the total of the formatted texts is the total of the entries. *)
Theorem aggregator_reads_formatter_output parse now entries :
  Forall reformattable entries ->
  map entry_duration (map (fun e => FreeText (format_entry e)) entries)
  = map entry_duration entries
  /\ calculate_experience parse now
       (map (fun e => FreeText (format_entry e)) entries)
     = calculate_experience parse now entries.
Proof.
  intros H.
  assert (E : map entry_duration
                (map (fun e => FreeText (format_entry e)) entries)
              = map entry_duration entries).
  { induction H as [|e l He _ IH]; [reflexivity|].
    cbn [map]. now rewrite IH, (reformatted_duration e He). }
  split; [exact E|].
  unfold calculate_experience.
  now rewrite (loop_depends_on_duration parse now _ _ 0 E).
Qed.

Lemma aggregator_reads_formatter_output_witness :
  calculate_experience parse_month_year clock_2023_01_15
    (map (fun e => FreeText (format_entry e))
       [job "Engineer" "01/2020 - 01/2021"])
  = calculate_experience parse_month_year clock_2023_01_15
      [job "Engineer" "01/2020 - 01/2021"].
Proof.
  apply aggregator_reads_formatter_output.
  constructor; [|constructor].
  split; [vm_compute; reflexivity|].
  exists "01/2020 - 01/2021". repeat split; vm_compute; reflexivity.
Defined.

(** ** More on the formatter *)

Section FormatterMore.

Lemma join_app sep (l1 l2 : list string) :
  l1 <> [] -> l2 <> [] ->
  Str.join sep (l1 ++ l2) = Str.join sep l1 ++ sep ++ Str.join sep l2.
Proof.
  intros H1 H2. induction l1 as [|x [|y l] IH]; [contradiction| |].
  - destruct l2; [contradiction|reflexivity].
  - change (Str.join sep ((x :: y :: l) ++ l2))
      with (x ++ sep ++ Str.join sep ((y :: l) ++ l2)).
    rewrite IH by discriminate.
    change (Str.join sep (x :: y :: l)) with (x ++ sep ++ Str.join sep (y :: l)).
    now rewrite !sapp_assoc.
Qed.

End FormatterMore.

(** X10: formatting two lists one after the other gives the two outputs
    joined by [", "]; the empty list gives the empty text. *)
Theorem format_experience_app l1 l2 :
  format_experience [] = ""
  /\ (l1 <> [] -> l2 <> [] ->
      format_experience (l1 ++ l2)
      = format_experience l1 ++ ", " ++ format_experience l2).
Proof.
  split; [reflexivity|]. intros H1 H2.
  unfold format_experience. rewrite !formatted_of_map, map_app.
  apply join_app; now destruct l1, l2.
Qed.

Lemma format_experience_app_witness :
  format_experience ([job "a" "b"] ++ [FreeText "c"])
  = format_experience [job "a" "b"] ++ ", " ++ format_experience [FreeText "c"].
Proof.
  apply format_experience_app; discriminate.
Defined.

(** ** The two experience functions on decoded JSON *)

Section UntypedFacts.

Variable parse : datetime -> string -> result datetime.
Variable now : datetime.
Variable py_str : json -> string.

Lemma dfind_map_JStr key (l : list (string * string)) :
  dfind key (map (fun kv => (fst kv, JStr (snd kv))) l)
  = JStr <$> ((list_to_map l : gmap string string) !! key).
Proof.
  induction l as [|[k v] l IH].
  { change (list_to_map [] : gmap string string) with (∅ : gmap string string).
    now rewrite lookup_empty. }
  change (list_to_map ((k, v) :: l) : gmap string string)
    with (<[k:=v]> (list_to_map l : gmap string string)).
  cbn [map dfind fst snd]. rewrite lookup_insert.
  destruct (String.eqb_spec k key) as [->|Hk].
  - now rewrite decide_True.
  - now rewrite decide_False.
Qed.

Lemma dfind_dict_of key (d : gmap string string) :
  dfind key (dict_of d) = JStr <$> (d !! key).
Proof. unfold dict_of. now rewrite dfind_map_JStr, list_to_map_to_list. Qed.

Lemma dget_dict_of key dflt (d : gmap string string) :
  dget key (JStr dflt) (dict_of d) = JStr (default dflt (d !! key)).
Proof. unfold dget. rewrite dfind_dict_of. now destruct (d !! key). Qed.

Lemma format_entry_to_json e :
  format_entry_json py_str (to_json e) = Ok (format_entry e).
Proof.
  destruct e as [d|s]; [|reflexivity].
  unfold to_json, format_entry_json, format_entry.
  now rewrite !dget_dict_of.
Qed.

Lemma format_loop_to_json entries : forall acc : list string,
  foldM (fun (formatted : list string) e =>
           item ← format_entry_json py_str e; Ok (formatted ++ [item])%list)
    (map to_json entries) acc
  = Ok (acc ++ map format_entry entries)%list.
Proof.
  induction entries as [|e l IH]; intros acc; simpl.
  - now rewrite app_nil_r.
  - rewrite format_entry_to_json. cbn [mbind result_bind].
    now rewrite IH, <- app_assoc.
Qed.

Lemma loop_step_to_json e total :
  loop_step_json parse now total (to_json e)
  = Ok (loop_step parse now total e).
Proof.
  destruct e as [d|s]; [|reflexivity].
  unfold to_json, loop_step_json, loop_step, entry_duration.
  rewrite dget_dict_of. cbn [try_body_json].
  now destruct (try_body parse now total _).
Qed.

Lemma calculate_loop_to_json entries : forall total,
  foldM (loop_step_json parse now) (map to_json entries) total
  = Ok (fold_left (loop_step parse now) entries total).
Proof.
  induction entries as [|e l IH]; intros total; simpl; [reflexivity|].
  rewrite loop_step_to_json. cbn [mbind result_bind]. apply IH.
Qed.

Lemma format_entry_json_cases e :
  (other_entry e = true /\ format_entry_json py_str e = Raise TypeError)
  \/ (other_entry e = false /\ exists item, format_entry_json py_str e = Ok item).
Proof. destruct e; simpl; eauto. Qed.

Lemma loop_step_json_cases e total :
  (other_entry e = true /\ loop_step_json parse now total e = Raise TypeError)
  \/ (other_entry e = false
      /\ exists t, loop_step_json parse now total e = Ok t).
Proof.
  destruct e; simpl; eauto.
  right. split; [reflexivity|]. destruct (try_body_json _ _ _ _); eauto.
Qed.

Lemma format_loop_cases entries : forall acc : list string,
  (existsb other_entry entries = true
   /\ foldM (fun (formatted : list string) e =>
               item ← format_entry_json py_str e; Ok (formatted ++ [item])%list)
        entries acc = Raise TypeError)
  \/ (existsb other_entry entries = false
      /\ exists l,
           foldM (fun (formatted : list string) e =>
                    item ← format_entry_json py_str e;
                    Ok (formatted ++ [item])%list)
             entries acc = Ok l).
Proof.
  induction entries as [|e l IH]; intros acc; simpl; [eauto|].
  destruct (format_entry_json_cases e) as [[-> ->]|[-> [item ->]]];
    cbn [mbind result_bind orb]; [now left|].
  apply IH.
Qed.

Lemma calculate_loop_cases entries : forall total,
  (existsb other_entry entries = true
   /\ foldM (loop_step_json parse now) entries total = Raise TypeError)
  \/ (existsb other_entry entries = false
      /\ exists t, foldM (loop_step_json parse now) entries total = Ok t).
Proof.
  induction entries as [|e l IH]; intros total; simpl; [eauto|].
  destruct (loop_step_json_cases e total) as [[-> ->]|[-> [t ->]]];
    cbn [mbind result_bind orb]; [now left|].
  apply IH.
Qed.

Lemma try_body_json_other total duration :
  (forall s, duration <> JStr s) ->
  try_body_json parse now total duration = Ok total
  \/ exists x, try_body_json parse now total duration = Raise x.
Proof.
  intros H. destruct duration as [| | | |s| |]; simpl;
    try (right; eexists; reflexivity).
  - now destruct (H s).
  - cbn [mbind result_bind].
    destruct (existsb _ l); cbn [mbind result_bind]; [right; eauto|].
    destruct (existsb _ l); [right|left]; eauto.
  - cbn [mbind result_bind].
    destruct (existsb _ d); cbn [mbind result_bind]; [right; eauto|].
    destruct (existsb _ d); [right|left]; eauto.
Qed.

End UntypedFacts.

(** X11: on a list of entries that are dicts with text values or texts,
    the two functions as [main] calls them return what the typed
    [format_experience] and [calculate_experience] return, without raising. *)
Theorem untyped_agrees_with_typed parse now py_str entries :
  format_experience_json py_str (JList (map to_json entries))
  = Ok (format_experience entries)
  /\ calculate_experience_json parse now (JList (map to_json entries))
     = Ok (calculate_experience parse now entries).
Proof.
  split.
  - unfold format_experience_json, format_experience.
    cbn [py_iter mbind result_bind].
    rewrite format_loop_to_json. cbn [mbind result_bind].
    now rewrite formatted_of_map.
  - unfold calculate_experience_json, calculate_experience.
    cbn [py_iter mbind result_bind].
    now rewrite calculate_loop_to_json.
Qed.

(** X12: given a list, each of the two functions raises exactly when an
    item of the list is neither a dict nor a text, and the exception is then
    the [TypeError] of [re.search]. *)
Theorem other_entries_raise parse now py_str entries :
  (existsb other_entry entries = true ->
   format_experience_json py_str (JList entries) = Raise TypeError
   /\ calculate_experience_json parse now (JList entries) = Raise TypeError)
  /\ (existsb other_entry entries = false ->
      exists text years,
        format_experience_json py_str (JList entries) = Ok text
        /\ calculate_experience_json parse now (JList entries) = Ok years).
Proof.
  unfold format_experience_json, calculate_experience_json.
  cbn [py_iter mbind result_bind].
  destruct (format_loop_cases py_str entries [])
    as [[Hf ->]|[Hf [l ->]]];
  destruct (calculate_loop_cases parse now entries 0)
    as [[Hc ->]|[Hc [t ->]]];
  cbn [mbind result_bind]; rewrite Hf in *; try discriminate.
  - split; [now split|discriminate].
  - split; [discriminate|]. intros _. eauto.
Qed.

Lemma other_entries_raise_witness :
  format_experience_json (fun _ => "")
    (JList [to_json (job "Engineer" "01/2020 - 01/2021"); JInt 3])
  = Raise TypeError
  /\ calculate_experience_json parse_month_year clock_2023_01_15
       (JList [to_json (job "Engineer" "01/2020 - 01/2021"); JInt 3])
     = Raise TypeError.
Proof.
  apply (proj1 (other_entries_raise parse_month_year clock_2023_01_15
                  (fun _ => "") _)).
  reflexivity.
Defined.

(** X13: a dict entry whose duration is not a text (a number, [null], a
    list, a dict) is skipped: the total stays as it is and nothing is
    raised. *)
Theorem non_text_duration_skipped parse now d total :
  (forall s, dget "duration" (JStr "") d <> JStr s) ->
  loop_step_json parse now total (JDict d) = Ok total.
Proof.
  intros H. unfold loop_step_json.
  now destruct (try_body_json_other parse now total _ H) as [->|[x ->]].
Qed.

Lemma non_text_duration_skipped_witness :
  loop_step_json parse_month_year clock_2023_01_15 5
    (JDict [("title", JStr "Engineer"); ("duration", JList [JStr "-"])])
  = Ok 5.
Proof.
  apply non_text_duration_skipped. intros s. vm_compute. discriminate.
Defined.

(** ** The loop of [main] *)

Section DictFacts.

Lemma dfind_dset_eq key v d : dfind key (dset key v d) = Some v.
Proof.
  induction d as [|[k x] d IH]; simpl.
  - now rewrite String.eqb_refl.
  - destruct (String.eqb k key) eqn:E; simpl; now rewrite E.
Qed.

Lemma dfind_dset_ne key key' v d :
  key <> key' -> dfind key' (dset key v d) = dfind key' d.
Proof.
  intros H. induction d as [|[k x] d IH]; simpl.
  - apply String.eqb_neq in H. now rewrite H.
  - destruct (String.eqb_spec k key) as [->|Hk]; simpl.
    + apply String.eqb_neq in H. now rewrite H.
    + now rewrite IH.
Qed.

Lemma dget_dset_ne key key' v dflt d :
  key <> key' -> dget key' dflt (dset key v d) = dget key' dflt d.
Proof. intros H. unfold dget. now rewrite dfind_dset_ne. Qed.

End DictFacts.

Section BatchFacts.

Variable pdf_reader : upload -> result (list (result string)).
Variable docx_document : upload -> result (list string).
Variable generate_content : string -> result string.
Variable loads : string -> result json.
Variable parse : datetime -> string -> result datetime.
Variable py_str : json -> string.
Variable clock : nat -> datetime.

Abbreviation process :=
  (process_file pdf_reader docx_document generate_content loads parse py_str
     clock).
Abbreviation step :=
  (main_step pdf_reader docx_document generate_content loads parse py_str
     clock).
Abbreviation extract := (extract_text_from_file pdf_reader docx_document).
Abbreviation respond := (parse_resume_with_gemini generate_content loads).

Lemma usable_truthy data : usable data = true -> truthy data = true.
Proof. destruct data as [| | | | | |[|? ?]]; simpl; congruence. Qed.

Lemma process_file_row rank file data_row :
  process rank file = Ok (Some data_row)
  <-> exists text data experience years skills,
        extract file = Some text /\ text <> ""
        /\ respond text = JDict data /\ data <> []
        /\ format_experience_json py_str (dget "experience" (JList []) data)
           = Ok experience
        /\ calculate_experience_json parse (clock rank)
             (dget "experience" (JList []) data) = Ok years
        /\ py_join ", " (dget "skills" (JList []) data) = Ok skills
        /\ data_row
           = finished_row data experience years skills (file_name file).
Proof.
  unfold process_file, finished_row. split.
  - destruct (extract file) as [[|c text]|] eqn:Et; try discriminate.
    destruct (respond (String c text)) as [| | | | | |data] eqn:Ed;
      simpl; try discriminate;
      try (match goal with |- context [negb ?b] => destruct b end;
           discriminate).
    destruct data as [|kv data]; [discriminate|]. simpl negb. cbn iota.
    set (d := kv :: data) in *.
    destruct (format_experience_json py_str _) as [experience|] eqn:Ef;
      cbn [mbind result_bind]; [|discriminate].
    destruct (calculate_experience_json parse _ _) as [years|] eqn:Ec;
      cbn [mbind result_bind]; [|discriminate].
    rewrite !dget_dset_ne by discriminate.
    destruct (py_join ", " _) as [skills|] eqn:Es;
      cbn [mbind result_bind]; [|discriminate].
    intros H. injection H as <-.
    exists (String c text), d, experience, years, skills.
    repeat split; try assumption; discriminate.
  - intros (text & data & experience & years & skills
            & Et & Hne & Ed & Hd & Ef & Ec & Es & ->).
    rewrite Et. destruct text as [|c text]; [contradiction|].
    rewrite Ed. destruct data as [|kv data]; [contradiction|].
    simpl negb. cbn iota. rewrite Ef. cbn [mbind result_bind].
    rewrite Ec. cbn [mbind result_bind].
    rewrite !dget_dset_ne by discriminate.
    rewrite Es. reflexivity.
Qed.

Lemma process_file_unusable rank file :
  extract file = None
  \/ extract file = Some ""
  \/ (exists text, extract file = Some text
                   /\ usable (respond text) = false) ->
  process rank file = Ok None
  \/ exists x, process rank file = Raise x.
Proof.
  unfold process_file. intros [->|[->|(text & -> & Hu)]]; [now left..|].
  destruct text as [|c text]; [now left|].
  destruct (respond (String c text)) as [| |n|x|s|l|[|kv d]];
    simpl in *; try discriminate; eauto.
  - destruct b; eauto.
  - destruct (negb (n =? 0)%Z); eauto.
  - destruct x; eauto.
  - destruct (negb (String.eqb s "")); eauto.
  - destruct l; eauto.
Qed.

Lemma step_cases t file :
  (exists data_row,
     process (success_count t + fail_count t) file = Ok (Some data_row)
     /\ step t file
        = Tally (all_data t ++ [data_row]) (S (success_count t)) (fail_count t))
  \/ ((process (success_count t + fail_count t) file = Ok None
       \/ exists x, process (success_count t + fail_count t) file = Raise x)
      /\ step t file
         = Tally (all_data t) (success_count t) (S (fail_count t))).
Proof.
  unfold main_step.
  destruct (process _ file) as [[data_row|]|x]; eauto 6.
Qed.

Lemma fold_step_counts files : forall t,
  let t' := fold_left step files t in
  (success_count t' + fail_count t'
   = success_count t + fail_count t + length files)%nat
  /\ (length (all_data t') + success_count t
      = length (all_data t) + success_count t')%nat.
Proof.
  induction files as [|file files IH]; intros t; simpl; [lia|].
  destruct (IH (step t file)) as [IH1 IH2].
  destruct (step_cases t file) as [(r & _ & E)|[_ E]];
    rewrite E in *; simpl in *; rewrite ?length_app in *; simpl in *; lia.
Qed.

Lemma fold_step_order files : forall t,
  exists added : list row,
    all_data (fold_left step files t) = (all_data t ++ added)%list
    /\ sublist (map (dfind "filename") added)
         (map (fun file => Some (JStr (file_name file))) files).
Proof.
  induction files as [|file files IH]; intros t; simpl.
  - exists []. now rewrite app_nil_r.
  - destruct (IH (step t file)) as (added & Ha & Hs). rewrite Ha.
    destruct (step_cases t file) as [(r & Hp & E)|[_ E]]; rewrite E; simpl.
    + exists (r :: added). rewrite <- app_assoc. split; [reflexivity|].
      apply process_file_row in Hp
        as (text & data & ex & yr & sk & _ & _ & _ & _ & _ & _ & _ & ->).
      simpl. unfold finished_row at 1. rewrite dfind_dset_eq.
      now apply sublist_skip.
    + exists added. split; [reflexivity|]. now apply sublist_cons.
Qed.

End BatchFacts.

(** X14: every file is counted once: the two counters add up to the number
    of files, and [all_data] has one row per success. *)
Theorem parse_resumes_counts pdf_reader docx_document generate_content loads
    parse py_str clock files :
  let t := parse_resumes pdf_reader docx_document generate_content loads parse
             py_str clock files in
  (success_count t + fail_count t = length files)%nat
  /\ length (all_data t) = success_count t.
Proof.
  intros t.
  destruct (fold_step_counts pdf_reader docx_document generate_content loads
              parse py_str clock files (Tally [] 0 0)) as [H1 H2].
  fold (parse_resumes pdf_reader docx_document generate_content loads parse
          py_str clock files) in H1, H2.
  fold t in H1, H2. simpl in H1, H2. lia.
Qed.

(** X15: the rows of [all_data] come in the order of the files, each with
    the name of its file under ["filename"]. *)
Theorem rows_in_file_order pdf_reader docx_document generate_content loads
    parse py_str clock files :
  sublist
    (map (dfind "filename")
       (all_data (parse_resumes pdf_reader docx_document generate_content
                    loads parse py_str clock files)))
    (map (fun file => Some (JStr (file_name file))) files).
Proof.
  destruct (fold_step_order pdf_reader docx_document generate_content loads
              parse py_str clock files (Tally [] 0 0)) as (added & Ha & Hs).
  unfold parse_resumes. now rewrite Ha.
Qed.

(** X16: a file gives a row exactly when its text is not empty, the
    sanitized response is a dict that is not empty, and neither the two
    experience functions nor the join of the skills raise; the row is the
    dict with the four derived values set. *)
Theorem file_gives_row pdf_reader docx_document generate_content loads parse
    py_str clock rank file data_row :
  process_file pdf_reader docx_document generate_content loads parse py_str
    clock rank file = Ok (Some data_row)
  <-> exists text data experience years skills,
        extract_text_from_file pdf_reader docx_document file = Some text
        /\ text <> ""
        /\ parse_resume_with_gemini generate_content loads text = JDict data
        /\ data <> []
        /\ format_experience_json py_str (dget "experience" (JList []) data)
           = Ok experience
        /\ calculate_experience_json parse (clock rank)
             (dget "experience" (JList []) data) = Ok years
        /\ py_join ", " (dget "skills" (JList []) data) = Ok skills
        /\ data_row
           = finished_row data experience years skills (file_name file).
Proof. apply process_file_row. Qed.

(** X17: in the row the four derived keys hold the formatted experience,
    the years, the joined skills and the file name; every other key of the
    response keeps its value. *)
Theorem finished_row_lookup data experience years skills filename :
  let r := finished_row data experience years skills filename in
  dfind "experience" r = Some (JStr experience)
  /\ dfind "experience_in_years" r = Some (JFloat years)
  /\ dfind "skills" r = Some (JStr skills)
  /\ dfind "filename" r = Some (JStr filename)
  /\ (forall key, key ∉ derived_keys -> dfind key r = dfind key data).
Proof.
  unfold finished_row. cbn zeta. repeat split.
  - rewrite !dfind_dset_ne by discriminate. apply dfind_dset_eq.
  - rewrite !dfind_dset_ne by discriminate. apply dfind_dset_eq.
  - rewrite dfind_dset_ne by discriminate. apply dfind_dset_eq.
  - apply dfind_dset_eq.
  - intros key H. unfold derived_keys in H.
    rewrite !dfind_dset_ne; [reflexivity|..];
      intros <-; apply H; repeat constructor.
Qed.

Lemma finished_row_lookup_witness :
  dfind "name"
    (finished_row [("name", JStr "Ada"); ("skills", JList [JStr "C"])]
       "Engineer (01/2020 - Present)" float_3_0 "C" "ada.pdf")
  = dfind "name" [("name", JStr "Ada"); ("skills", JList [JStr "C"])].
Proof.
  apply (finished_row_lookup [("name", JStr "Ada"); ("skills", JList [JStr "C"])]
           "Engineer (01/2020 - Present)" float_3_0 "C" "ada.pdf").
  unfold derived_keys. intros H.
  repeat (apply elem_of_cons in H as [H|H]; [discriminate|]).
  now apply elem_of_nil in H.
Defined.

(** X18: a file is counted as failed, and adds no row, when its text is
    missing or empty, or when the sanitized response is anything but a dict
    that is not empty: [None], an empty value, a list, a text, a number. *)
Theorem unusable_file_fails pdf_reader docx_document generate_content loads
    parse py_str clock t file :
  extract_text_from_file pdf_reader docx_document file = None
  \/ extract_text_from_file pdf_reader docx_document file = Some ""
  \/ (exists text,
        extract_text_from_file pdf_reader docx_document file = Some text
        /\ usable (parse_resume_with_gemini generate_content loads text)
           = false) ->
  main_step pdf_reader docx_document generate_content loads parse py_str clock
    t file
  = Tally (all_data t) (success_count t) (S (fail_count t)).
Proof.
  intros H. unfold main_step.
  destruct (process_file_unusable pdf_reader docx_document generate_content
              loads parse py_str clock (success_count t + fail_count t) file H)
    as [->|[x ->]]; reflexivity.
Qed.

Lemma unusable_file_fails_witness :
  main_step (fun _ => Ok [Ok "Ada, engineer"]) (fun _ => Ok [])
    (fun _ => Ok "[1]") json_loads_sample parse_month_year (fun _ => "")
    (fun _ => clock_2023_01_15) (Tally [] 0 0) (Upload "ada.pdf" pdf_type "")
  = Tally [] 0 1.
Proof.
  apply (unusable_file_fails _ _ _ _ _ _ _ (Tally [] 0 0)).
  right. right. exists "Ada, engineer". split; vm_compute; reflexivity.
Defined.

(** X19: a file whose type is neither PDF nor DOCX is counted as failed
    whatever the readers, the model and the repairer would return. *)
Theorem unsupported_type_fails pdf_reader docx_document generate_content loads
    parse py_str clock t file :
  file_type file <> pdf_type ->
  file_type file <> docx_type ->
  extract_text_from_file pdf_reader docx_document file = Some ""
  /\ main_step pdf_reader docx_document generate_content loads parse py_str
       clock t file
     = Tally (all_data t) (success_count t) (S (fail_count t)).
Proof.
  intros H1 H2.
  pose proof (extract_other pdf_reader docx_document file H1 H2) as E.
  split; [exact E|].
  unfold main_step, process_file. now rewrite E.
Qed.

Lemma unsupported_type_fails_witness :
  main_step (fun _ => Ok [Ok "Ada"]) (fun _ => Ok ["Ada"])
    (fun _ => Ok doc_a) json_loads_sample parse_month_year (fun _ => "")
    (fun _ => clock_2023_01_15) (Tally [] 0 0) (Upload "ada.txt" "text/plain" "")
  = Tally [] 0 1.
Proof.
  apply (unsupported_type_fails _ _ _ _ _ _ _ (Tally [] 0 0)
           (Upload "ada.txt" "text/plain" "")); discriminate.
Defined.
